(** * koila: shape algebra and the lazy-evaluation graph

    A shallow embedding of [koila/shapes.py] and [koila/tensors.py].
    Python integers are [Z], shape tuples are [list Z], raised exceptions
    are the [Err] side of the [result] monad, and a Python [set] of axes
    is a [gset Z]. *)

From Stdlib Require Import ZArith Ascii Sorting.Sorted.
From stdpp Require Import base decidable option numbers list list_numbers
  sorting gmap strings pretty.

Local Open Scope Z_scope.

(* ===================================================================== *)
(** * Exceptions and the error monad *)
(* ===================================================================== *)

(** The exception classes the two modules raise.  [ValueError] carries its
    message, if it was raised with one. *)
Inductive Exception : Type :=
| ValueError (msg : option string)
| TypeError
| AssertionError
| IndexError
| AttributeError
| UnsupportedError (msg : string)
| NeverImplementedError
| RuntimeError (msg : string).

Inductive result (A : Type) : Type :=
| Ok (a : A)
| Err (e : Exception).
Arguments Ok {A} a.
Arguments Err {A} e.

#[global] Instance result_ret : MRet result := λ A a, Ok a.
#[global] Instance result_bind : MBind result := λ A B f m,
  match m with
  | Ok a => f a
  | Err e => Err e
  end.
#[global] Instance result_fmap : FMap result := λ A B f m,
  match m with
  | Ok a => Ok (f a)
  | Err e => Err e
  end.

(** [raise e] and [assert b]. *)
Definition raise {A} (e : Exception) : result A := Err e.
Definition py_assert (b : bool) : result unit :=
  if b then Ok tt else Err AssertionError.

(* ===================================================================== *)
(** * Python built-ins used by the shape algebra *)
(* ===================================================================== *)

Module Py.

(** [len(t)] as a Python integer. *)
Definition len {A} (t : list A) : Z := Z.of_nat (length t).

(** [t[i]] on a tuple: negative indices count from the end, anything
    outside [-len, len) raises [IndexError]. *)
Definition getitem {A} (t : list A) (i : Z) : result A :=
  let j := if i <? 0 then len t + i else i in
  if (j <? 0) || (len t <=? j) then raise IndexError
  else match t !! Z.to_nat j with
       | Some x => Ok x
       | None => raise IndexError
       end.

(** [t[i] = x] on a list: the same index rule as [getitem]. *)
Definition setitem {A} (t : list A) (i : Z) (x : A) : result (list A) :=
  let j := if i <? 0 then len t + i else i in
  if (j <? 0) || (len t <=? j) then raise IndexError
  else Ok (<[Z.to_nat j := x]> t).

(** [t[:-2]]. *)
Definition drop_last2 {A} (t : list A) : list A :=
  take (length t - 2)%nat t.

(** [(x,) * n]: empty when [n <= 0]. *)
Definition repeat_tuple {A} (x : A) (n : Z) : list A :=
  replicate (Z.to_nat n) x.

(** [list(range(n))]. *)
Definition range (n : Z) : list Z := seqZ 0 n.

(** [enumerate(t)]. *)
Definition enumerate {A} (t : list A) : list (Z * A) :=
  zip (seqZ 0 (len t)) t.

(** [sorted]: Python's sort is stable and compares with [<] only.  The
    model is the stable insertion sort: an element is placed after every
    element that is strictly smaller, and before the first that is not. *)
Section sorted.
Context {A : Type} (lt : A → A → bool).

Fixpoint insert (x : A) (l : list A) : list A :=
  match l with
  | [] => [x]
  | y :: l' => if lt y x then y :: insert x l' else x :: y :: l'
  end.

Definition sorted (l : list A) : list A := foldr insert [] l.
End sorted.

(** [<] on integers, on pairs of integers (lexicographic), and through
    [key=lambda pair: pair[1]]. *)
Definition int_lt (a b : Z) : bool := a <? b.
Definition pair_lt (p q : Z * Z) : bool :=
  (p.1 <? q.1) || ((p.1 =? q.1) && (p.2 <? q.2)).
Definition key_snd_lt (p q : Z * Z) : bool := p.2 <? q.2.

(** [t == n] for a tuple [t] and an integer [n]: objects of different
    types never compare equal. *)
Definition tuple_eq_int (t : list Z) (n : Z) : bool := false.

End Py.

(* ===================================================================== *)
(** * koila/shapes.py *)
(* ===================================================================== *)

Module shapes.

Definition compatible (input other : Z) (broadcast : bool) : bool :=
  if broadcast
  then (input =? 1) || (other =? 1) || (input =? other)
  else input =? other.

Definition prepends (input other : list Z) : result (list Z * list Z) :=
  let li := Py.len input in
  let lo := Py.len other in
  let prepended := Py.repeat_tuple 1 (Z.abs (li - lo)) in
  let '(input, other) :=
    if lo <=? li then (input, prepended ++ other)
    else (prepended ++ input, other) in
  py_assert (Py.len input =? Py.len other);;
  Ok (input, other).

(** The loop of [coerce]: [None] is the early [return None]. *)
Fixpoint coerce_loop (pairs : list (Z * Z)) (shape : list Z)
  : result (option (list Z)) :=
  match pairs with
  | [] => Ok (Some shape)
  | (a, b) :: rest =>
      if (a <=? 0) || (b <=? 0) then raise (ValueError None)
      else if compatible a b true
           then coerce_loop rest (shape ++ [Z.max a b])
           else Ok None
  end.

Definition coerce (input other : list Z) (broadcast scalars : bool)
  : result (option (list Z)) :=
  if scalars && (Py.len input =? 0) then Ok (Some other)
  else if scalars && (Py.len other =? 0) then Ok (Some input)
  else if negb (Py.len input =? Py.len other) then Ok None
  else if negb broadcast
       then (if bool_decide (input = other) then Ok (Some input) else Ok None)
       else '(input, other) ← prepends input other;
            coerce_loop (zip input other) [].

Definition identity (input : list Z) : result (list Z) := Ok input.

Definition symmetric (input other : list Z) : result (list Z) :=
  shape ← coerce input other true true;
  match shape with
  | None => raise (ValueError None)
  | Some shape => Ok shape
  end.

(** [dim: int | Tuple[int, ...]]. *)
Inductive DimArg : Type :=
| DimInt (d : Z)
| DimTuple (ds : list Z).

Definition dimensions_of (dim : DimArg) : gset Z :=
  match dim with
  | DimInt d => {[ d ]}
  | DimTuple ds => list_to_set ds
  end.

(** One iteration of [for d in input]: [d] ranges over the entries of
    the shape tuple. *)
Definition reduce_step (dimensions : gset Z) (keepdim : bool)
    (shapes : list Z) (d : Z) : list Z :=
  if bool_decide (d ∉ dimensions) then shapes
  else if keepdim then shapes ++ [1] else shapes.

Definition reduce_dims (input : list Z) (dim : DimArg) (keepdim : bool)
  : result (list Z) :=
  let dimensions := dimensions_of dim in
  let shapes := foldl (reduce_step dimensions keepdim) [] input in
  (if keepdim then py_assert (Py.len shapes =? Py.len input) else Ok tt);;
  Ok shapes.

Definition scalar (input : list Z) : result (list Z) :=
  res ← reduce_dims input (DimTuple (Py.range (Py.len input))) false;
  py_assert (bool_decide (res = []));;
  Ok res.

Definition permute (input : list Z) (dims : list Z) : result (list Z) :=
  if negb (Py.len input =? Py.len dims) then raise TypeError
  else if negb (bool_decide (Py.sorted Py.int_lt dims = Py.range (Py.len dims)))
  then raise (ValueError None)
  else if negb (Z.of_nat (size (list_to_set dims : gset Z)) =? Py.len dims)
  then raise (ValueError None)
  else
    let dims_order_pair := Py.sorted Py.key_snd_lt (Py.enumerate dims) in
    let scattered_dims := dims_order_pair.*1 in
    let paired := Py.sorted Py.pair_lt (zip scattered_dims input) in
    let reordered_dim := paired.*2 in
    Ok reordered_dim.

(** The batch loop of [matmul] over [zip(input[:-2], other[:-2])]. *)
Fixpoint matmul_batch (pairs : list (Z * Z)) (shapes : list Z)
  : result (list Z) :=
  match pairs with
  | [] => Ok shapes
  | (dimi, dimo) :: rest =>
      if negb (compatible dimi dimo true) then raise (ValueError None)
      else matmul_batch rest (shapes ++ [Z.max dimi dimo])
  end.

Definition matmul_message (li lo : Z) : string :=
  "Both arguments to matmul need to be at least 1D." +:+ " " +:+
  "Got " +:+ pretty li +:+ "D and " +:+ pretty lo +:+ "D.".

Definition matmul (input other : list Z) : result (list Z) :=
  let li := Py.len input in
  let lo := Py.len other in
  if (li =? 0) || (lo =? 0) then raise (ValueError (Some (matmul_message li lo)))
  else if (li =? lo) && (lo =? 1) then
    i0 ← Py.getitem input 0; o0 ← Py.getitem other 0;
    if negb (i0 =? o0) then raise (ValueError None) else Ok []
  else if (li =? lo) && (lo =? 2) then
    i1 ← Py.getitem input 1; o0 ← Py.getitem other 0;
    if negb (i1 =? o0) then raise (ValueError None)
    else i0 ← Py.getitem input 0; o1 ← Py.getitem other 1; Ok [i0; o1]
  else if (li =? 1) && Py.tuple_eq_int other 2 then
    i0 ← Py.getitem input 0; o0 ← Py.getitem other 0;
    if negb (i0 =? o0) then raise (ValueError None)
    else o1 ← Py.getitem other 1; Ok [o1]
  else if (li =? 2) && Py.tuple_eq_int other 1 then
    i1 ← Py.getitem input 1; o0 ← Py.getitem other 0;
    if negb (i1 =? o0) then raise (ValueError None)
    else i0 ← Py.getitem input 0; Ok [i0]
  else
    '(input, other) ← prepends input other;
    shapes ← matmul_batch (zip (Py.drop_last2 input) (Py.drop_last2 other)) [];
    il ← Py.getitem input (-1); ol2 ← Py.getitem other (-2);
    if negb (il =? ol2) then raise (ValueError None)
    else il2 ← Py.getitem input (-2); ol ← Py.getitem other (-1);
         Ok (shapes ++ [il2; ol]).

(** [tranpose]: the right-hand side [(shapes[dim1], shapes[dim0])] is
    read first, then [shapes[dim0]] and [shapes[dim1]] are assigned in
    that order. *)
Definition tranpose (input : list Z) (dim0 dim1 : Z) : result (list Z) :=
  if Py.len input <? 2 then raise (ValueError None)
  else
    let shapes := input in
    a ← Py.getitem shapes dim1;
    b ← Py.getitem shapes dim0;
    shapes ← Py.setitem shapes dim0 a;
    shapes ← Py.setitem shapes dim1 b;
    Ok shapes.

Definition linear (input weight : list Z) (bias : option (list Z))
  : result (list Z) :=
  weight_t ← tranpose weight (-1) (-2);
  res ← matmul input weight_t;
  match bias with
  | Some bias => symmetric res bias
  | None => Ok res
  end.

End shapes.

(** The order on pairs that [Py.pair_lt] decides, and the entry of a tuple
    at an axis known to be in range; both are used to state what [permute]
    computes. *)
Definition pair_le (p q : Z * Z) : Prop :=
  p.1 < q.1 ∨ (p.1 = q.1 ∧ p.2 ≤ q.2).

Definition at_axis (input : list Z) (d : Z) : Z :=
  default 0 (input !! Z.to_nat d).

(** The list [scattered_dims] that [permute] computes from [dims]: the
    positions of [0], [1], ... in [dims]. *)
Definition scattered_dims (dims : list Z) : list Z :=
  (Py.sorted Py.key_snd_lt (Py.enumerate dims)).*1.

(** A pair of sizes that broadcasting accepts: both positive and
    compatible. *)
Definition broadcastable (p : Z * Z) : bool :=
  (0 <? p.1) && (0 <? p.2) && shapes.compatible p.1 p.2 true.

(** The last step of [symmetric]: the absent result of [coerce] becomes a
    [ValueError]. *)
Definition or_ValueError (shape : option (list Z)) : result (list Z) :=
  match shape with
  | None => raise (ValueError None)
  | Some shape => Ok shape
  end.

(** The position an index denotes in a tuple of length [n], if any. *)
Definition position (n : nat) (i : Z) : option nat :=
  let j := if i <? 0 then Z.of_nat n + i else i in
  if (j <? 0) || (Z.of_nat n <=? j) then None else Some (Z.to_nat j).

(* ===================================================================== *)
(** * koila/tensors.py *)
(* ===================================================================== *)

(** The two shape adapters of [tensors.py]:
    [_permute_function_shape] turns a lone integer into a one-element
    tuple before calling [shapes.permute], and [_t_shape] transposes the
    first two axes. *)
Definition _permute_function_shape (input : list Z) (dims : shapes.DimArg)
  : result (list Z) :=
  match dims with
  | shapes.DimInt d => shapes.permute input [d]
  | shapes.DimTuple ds => shapes.permute input ds
  end.

Definition _t_shape (input : list Z) : result (list Z) :=
  shapes.tranpose input 0 1.

(** The types of the host library (torch): tensors, Python floats, element
    types, devices, the index objects a [PartialInfo] carries, and the
    value of a tensor's [shape] attribute. *)
Class Torch : Type := {
  Tensor : Type;
  Float : Type;
  DType : Type;
  Device : Type;
  Index : Type;
  Size : Type;
}.

(** A callable of the host library, named as the source names it:
    [Tensor.__add__] is [Tensor_method "__add__"], [torch.min] is
    [torch_function "min"]. *)
Inductive Callable : Type :=
| Tensor_method (name : string)
| torch_function (name : string).

(** The shape rules that [tensors.py] passes to [lazy_forward]. *)
Inductive ShapeRule : Type :=
| shapes_identity
| shapes_symmetric
| shapes_reduce_dims
| shapes_matmul
| shapes_permute
| NeverImplementedError_raise_error.

Module tensors.
Section graph.
Context `{Torch}.

(** Modelled from the spec: the class [MetaData] is imported from
    [koila.shapes] but its declaration is not part of the module; it holds
    the element type, the device tag and the optional batch-dimension
    index, the three fields [tensors.py] reads. *)
Record MetaData : Type := { dtype : DType; device : Device; batch : option Z }.

(** Modelled from the spec: the class [Shape], likewise imported and not
    declared; an ordered sequence of dimension sizes plus metadata, read
    by [tensors.py] as [value] and [metadata]. *)
Record Shape : Type := { value : list Z; metadata : MetaData }.

(** Modelled from the spec: the class [PartialInfo] of [koila.partials],
    an index or slice descriptor that restricts a run; [tensors.py] reads
    its [index]. *)
Record PartialInfo : Type := { index : Index }.

(** Python objects that flow through the graph: [None], numbers, host
    tensors, lazy tensors and deferred nodes.  A [LazyTensor] holds
    [_data] and [_batch]; an [Evaluation] holds the recorded callable,
    the predicted shape, the optional callback and the operands ([kwargs]
    in insertion order). *)
Inductive Value : Type :=
| VNone
| VBool (b : bool)
| VInt (z : Z)
| VFloat (f : Float)
| VTensor (t : Tensor)
| VLazy (l : LazyTensor)
| VEval (e : Evaluation)
with LazyTensor : Type :=
| MkLazyTensor (_data : Value) (_batch : option Z)
with Evaluation : Type :=
| MkEvaluation (func : Callable) (shape : Shape)
    (callback : option (Tensor → result Tensor))
    (args : list Value) (kwargs : list (string * Value)).

Definition _data (self : LazyTensor) : Value :=
  match self with MkLazyTensor d _ => d end.
Definition _batch (self : LazyTensor) : option Z :=
  match self with MkLazyTensor _ b => b end.
Definition func (self : Evaluation) : Callable :=
  match self with MkEvaluation f _ _ _ _ => f end.
Definition shape (self : Evaluation) : Shape :=
  match self with MkEvaluation _ s _ _ _ => s end.
Definition callback (self : Evaluation) : option (Tensor → result Tensor) :=
  match self with MkEvaluation _ _ c _ _ => c end.
Definition args (self : Evaluation) : list Value :=
  match self with MkEvaluation _ _ _ a _ => a end.
Definition kwargs (self : Evaluation) : list (string * Value) :=
  match self with MkEvaluation _ _ _ _ k => k end.

(** [ShapeFunction]: called with the operands themselves. *)
Definition ShapeFunction : Type :=
  list Value → list (string * Value) → result Shape.

(** What the host library and the missing glue provide:
    - [call f args kwargs], the call of [f] on positional [args] and
      keyword [kwargs];
    - [Tensor_getitem t i], the indexing [t[i]];
    - [Tensor_shape t], the attribute [t.shape];
    - [Shape_eq s z], the comparison [s == z] of a predicted shape with
      a tensor's shape;
    - [shape_function r], the rule [r] as a [ShapeFunction] over
      operands. *)
Class TorchOps : Type := {
  call : Callable → list Value → list (string * Value) → result Tensor;
  Tensor_getitem : Tensor → Index → result Tensor;
  Tensor_shape : Tensor → Size;
  Shape_eq : Shape → Size → bool;
  shape_function : ShapeRule → ShapeFunction;
}.
Context `{TorchOps}.

(** ** [LazyTensor.__init__] *)
Definition LazyTensor_init (data : Value) (batch : option Z) : LazyTensor :=
  match data with
  | VLazy data => MkLazyTensor (_data data) (_batch data)
  | _ => MkLazyTensor data batch
  end.

(** ** [run], [LazyTensor.run] and [Evaluation.run] *)

(** The last part of [Evaluation.run], once the recorded callable has
    returned [raw]: the callback under a partial run, then the shape
    assertion. *)
Definition finish_run (self : Evaluation) (partial : option PartialInfo)
    (raw : Tensor) : result Tensor :=
  res ← match partial with
        | Some _ =>
            match callback self with
            | None => raise (UnsupportedError "Cannot safely parallelize.")
            | Some callback => callback raw
            end
        | None => Ok raw
        end;
  py_assert (Shape_eq (shape self) (Tensor_shape res));;
  Ok res.

Fixpoint run (val : Value) (partial : option PartialInfo) {struct val}
  : result Value :=
  match val with
  | VLazy l => VTensor <$> LazyTensor_run l partial
  | VEval e => VTensor <$> Evaluation_run e partial
  | _ => Ok val
  end
with LazyTensor_run (self : LazyTensor) (partial : option PartialInfo)
    {struct self} : result Tensor :=
  match self with
  | MkLazyTensor data _ =>
      match data with
      | VTensor data =>
          match partial with
          | None => Ok data
          | Some partial => Tensor_getitem data (index partial)
          end
      | VLazy data => LazyTensor_run data partial
      | VEval data => Evaluation_run data partial
      | _ => raise AttributeError
      end
  end
with Evaluation_run (self : Evaluation) (partial : option PartialInfo)
    {struct self} : result Tensor :=
  match self with
  | MkEvaluation f s cb a k =>
      real_args ←
        match partial with
        | None => mapM (λ arg, run arg None) a
        | Some p => mapM (λ arg, run arg (Some p)) a
        end;
      real_kwargs ←
        match partial with
        | None => mapM (λ kv, v ← run kv.2 None; Ok (kv.1, v)) k
        | Some p => mapM (λ kv, v ← run kv.2 (Some p); Ok (kv.1, v)) k
        end;
      raw ← call f real_args real_kwargs;
      finish_run (MkEvaluation f s cb a k) partial raw
  end.

(** The two comprehensions at the head of [Evaluation.run]. *)
Definition run_args (a : list Value) (partial : option PartialInfo)
  : result (list Value) :=
  mapM (λ arg, run arg partial) a.
Definition run_kwargs (k : list (string * Value))
    (partial : option PartialInfo) : result (list (string * Value)) :=
  mapM (λ kv, v ← run kv.2 partial; Ok (kv.1, v)) k.

(** ** Accessors *)
Definition Evaluation_metadata (self : Evaluation) : MetaData :=
  metadata (shape self).

Definition Evaluation_batch (self : Evaluation) : option Z :=
  batch (metadata (shape self)).

(** [LazyTensor.batch]: the body is the expression statement
    [self._batch]; its value is discarded and the method returns
    [None]. *)
Definition LazyTensor_batch (self : LazyTensor) : option Z :=
  let _ := _batch self in None.

(** ** [lazy], [LazyFunction.__call__] and [lazy_forward] *)
Definition lazy (val : Value) (batch : option Z) : Value :=
  match val with
  | VLazy _ => val
  | VTensor _ => VLazy (LazyTensor_init val batch)
  | _ => val
  end.

Definition LazyFunction_call (func : Callable) (shape_func : ShapeFunction)
    (args : list Value) (kwargs : list (string * Value)) : result LazyTensor :=
  let lazy_args := (λ arg, lazy arg None) <$> args in
  let lazy_kwargs := (λ kv, (kv.1, lazy kv.2 None)) <$> kwargs in
  shape ← shape_func args kwargs;
  Ok (LazyTensor_init
        (VEval (MkEvaluation func shape None lazy_args lazy_kwargs)) None).

(** [is_grad_enabled] is the value of [torch.is_grad_enabled()] in the
    surrounding context. *)
Definition lazy_forward (is_grad_enabled : bool) (func : Callable)
    (shape_func : ShapeFunction)
    (args : list Value) (kwargs : list (string * Value)) : result Value :=
  if is_grad_enabled
  then l ← LazyFunction_call func shape_func args kwargs;
       Ok (VLazy (LazyTensor_init (VLazy l) None))
  else VTensor <$> call func args kwargs.

(** ** Operators of [LazyTensor]

    The first argument [g] of every operator is the value of
    [torch.is_grad_enabled()] at the call. *)
Definition LazyTensor___add__ (g : bool) (self : LazyTensor) (other : Value) :=
  lazy_forward g (Tensor_method "__add__") (shape_function shapes_symmetric)
    [VLazy self; other] [].
Definition LazyTensor___radd__ (g : bool) (self : LazyTensor) (other : Value) :=
  lazy_forward g (Tensor_method "__add__") (shape_function shapes_symmetric)
    [other; VLazy self] [].
Definition LazyTensor___truediv__ (g : bool) (self : LazyTensor) (other : Value) :=
  lazy_forward g (Tensor_method "__truediv__") (shape_function shapes_symmetric)
    [VLazy self; other] [].
Definition LazyTensor___rtruediv__ (g : bool) (self : LazyTensor) (other : Value) :=
  lazy_forward g (Tensor_method "__truediv__") (shape_function shapes_symmetric)
    [other; VLazy self] [].
Definition LazyTensor___matmul__ (g : bool) (self : LazyTensor) (other : Value) :=
  lazy_forward g (Tensor_method "__matmul__") (shape_function shapes_matmul)
    [VLazy self; other] [].

(** [del other; raise NeverImplementedError]. *)
Definition LazyTensor___floordiv__ (g : bool) (self : LazyTensor)
    (other : Value) : result Value :=
  raise NeverImplementedError.
Definition LazyTensor___rfloordiv__ (g : bool) (self : LazyTensor)
    (other : Value) : result Value :=
  raise NeverImplementedError.
Definition LazyTensor___divmod__ (g : bool) (self : LazyTensor)
    (other : Value) : result Value :=
  raise NeverImplementedError.
Definition LazyTensor___rdivmod__ (g : bool) (self : LazyTensor)
    (other : Value) : result Value :=
  raise NeverImplementedError.

(** ** [_min] and [_max] *)

(** [isinstance(v, (Tensor, LazyTensor))] and [v is not None]. *)
Definition is_tensor_or_lazy (v : Value) : bool :=
  match v with VTensor _ | VLazy _ => true | _ => false end.
Definition is_not_None (v : Value) : bool :=
  match v with VNone => false | _ => true end.

(** [kwargs.get(key, default)]. *)
Fixpoint dict_get (kwargs : list (string * Value)) (key : string)
    (default : Value) : Value :=
  match kwargs with
  | [] => default
  | (k, v) :: rest => if String.eqb k key then v else dict_get rest key default
  end.

(** The test
    [len(args) == 1 and isinstance((other := args[0]), (Tensor, LazyTensor))
     or len(kwargs) == 1 and (other := kwargs.get("other", None) is not None)]:
    [Some other] when it holds, with the value last bound to [other].
    The second walrus binds the result of [... is not None]. *)
Definition binary_operand (args : list Value) (kwargs : list (string * Value))
  : option Value :=
  let first :=
    if Py.len args =? 1
    then match args with
         | other :: _ => if is_tensor_or_lazy other then Some other else None
         | [] => None
         end
    else None in
  match first with
  | Some other => Some other
  | None =>
      if Py.len kwargs =? 1
      then let other := is_not_None (dict_get kwargs "other" VNone) in
           if other then Some (VBool other) else None
      else None
  end.

(** [_ValIdx], or a single tensor-like. *)
Inductive MinMax : Type :=
| Single (v : Value)
| _ValIdx (values indices : Value).

Definition _min (g : bool) (input : Value) (args : list Value)
    (kwargs : list (string * Value)) : result MinMax :=
  if (Py.len args =? Py.len kwargs) && (Py.len kwargs =? 0)
  then Single <$> lazy_forward g (torch_function "min")
                    (shape_function shapes_reduce_dims) [input] []
  else match binary_operand args kwargs with
       | Some other =>
           Single <$> lazy_forward g (torch_function "minimum")
                        (shape_function shapes_symmetric) [input; other] []
       | None =>
           values ← lazy_forward g (torch_function "amin")
                      (shape_function shapes_reduce_dims) (input :: args) kwargs;
           indices ← lazy_forward g (torch_function "argmin")
                       (shape_function shapes_reduce_dims) (input :: args) kwargs;
           Ok (_ValIdx values indices)
       end.

Definition _max (g : bool) (input : Value) (args : list Value)
    (kwargs : list (string * Value)) : result MinMax :=
  if (Py.len args =? Py.len kwargs) && (Py.len kwargs =? 0)
  then Single <$> lazy_forward g (torch_function "max")
                    (shape_function shapes_reduce_dims) [input] []
  else match binary_operand args kwargs with
       | Some other =>
           Single <$> lazy_forward g (torch_function "maximum")
                        (shape_function shapes_symmetric) [input; other] []
       | None =>
           values ← lazy_forward g (torch_function "amax")
                      (shape_function shapes_reduce_dims) (input :: args) kwargs;
           indices ← lazy_forward g (torch_function "argmax")
                       (shape_function shapes_reduce_dims) (input :: args) kwargs;
           Ok (_ValIdx values indices)
       end.

End graph.

(** ** The registries: [MethodFunction], [CUSTOM_OPS] and [SHAPE_OPS] *)

Section registry.
Context {T : Type}.

(** A [MethodFunction] holds two dictionaries keyed by operation name. *)
Record MethodFunction : Type := {
  method : gmap string T;
  function : gmap string T;
}.

(** [_search]: the first dictionary that has the key decides. *)
Fixpoint _search (key : string) (dbs : list (gmap string T)) : option T :=
  match dbs with
  | [] => None
  | db :: dbs =>
      match db !! key with
      | Some value => Some value
      | None => _search key dbs
      end
  end.

(** [key.lstrip("_")]. *)
Fixpoint lstrip_underscores (key : string) : string :=
  match key with
  | String c rest => if Ascii.eqb c "_"%char then lstrip_underscores rest else key
  | EmptyString => key
  end.

Definition lookup (key : string) (dbs : list (gmap string T)) : option T :=
  match _search key dbs with
  | Some res => Some res
  | None =>
      let fallback := lstrip_underscores key in
      _search fallback dbs
  end.

Definition lookup_method (self : MethodFunction) (key : string) : option T :=
  lookup key [method self; function self].

Definition lookup_function (self : MethodFunction) (key : string) : option T :=
  lookup key [function self].

End registry.
Arguments MethodFunction : clear implicits.

(** The entries of [CUSTOM_OPS]. *)
Inductive CustomImpl : Type :=
| impl_min
| impl_max.

Definition CUSTOM_OPS : MethodFunction CustomImpl := {|
  method := ∅;
  function := list_to_map [("min", impl_min); ("max", impl_max)];
|}.

(** The shape functions named in [SHAPE_OPS]: the rules above, and those
    of which only the name occurs in [tensors.py]. *)
Inductive ShapeImpl : Type :=
| rule (r : ShapeRule)
| impl_t_shape
| impl_permute_function_shape
| shapes_tranpose
| shapes_linear
| shapes_cat
| shapes_select
| shapes_embedding
| shapes_pad
| shapes_conv
| shapes_conv_transpose
| shapes_maxpool
| shapes_avgpool.

Definition SHAPE_OPS : MethodFunction ShapeImpl := {|
  method := list_to_map [("permute", rule shapes_permute)];
  function := list_to_map [
    ("positive", rule shapes_identity);
    ("negative", rule shapes_identity);
    ("neg", rule shapes_identity);
    ("add", rule shapes_symmetric);
    ("sub", rule shapes_symmetric);
    ("subtract", rule shapes_symmetric);
    ("mul", rule shapes_symmetric);
    ("multiply", rule shapes_symmetric);
    ("div", rule shapes_symmetric);
    ("divide", rule shapes_symmetric);
    ("true_divide", rule shapes_symmetric);
    ("floor", rule shapes_identity);
    ("fmod", rule shapes_symmetric);
    ("remainder", rule shapes_symmetric);
    ("frac", rule shapes_identity);
    ("pow", rule shapes_symmetric);
    ("exp", rule shapes_identity);
    ("exp2", rule shapes_identity);
    ("log", rule shapes_identity);
    ("log2", rule shapes_identity);
    ("log10", rule shapes_identity);
    ("log1p", rule shapes_identity);
    ("abs", rule shapes_identity);
    ("matmul", rule shapes_matmul);
    ("bmm", rule shapes_matmul);
    ("mm", rule shapes_matmul);
    ("mv", rule shapes_matmul);
    ("dot", rule shapes_matmul);
    ("eq", rule shapes_symmetric);
    ("equal", rule shapes_symmetric);
    ("ne", rule shapes_symmetric);
    ("not_equal", rule shapes_symmetric);
    ("gt", rule shapes_symmetric);
    ("greater", rule shapes_symmetric);
    ("ge", rule shapes_symmetric);
    ("greater_equal", rule shapes_symmetric);
    ("lt", rule shapes_symmetric);
    ("less", rule shapes_symmetric);
    ("le", rule shapes_symmetric);
    ("less_equal", rule shapes_symmetric);
    ("mean", rule shapes_reduce_dims);
    ("sum", rule shapes_reduce_dims);
    ("std", rule shapes_reduce_dims);
    ("minimum", rule shapes_symmetric);
    ("maximum", rule shapes_symmetric);
    ("amin", rule shapes_reduce_dims);
    ("amax", rule shapes_reduce_dims);
    ("argmin", rule shapes_reduce_dims);
    ("argmax", rule shapes_reduce_dims);
    ("isclose", rule shapes_symmetric);
    ("allclose", rule shapes_reduce_dims);
    ("cat", shapes_cat);
    ("t", impl_t_shape);
    ("permute", impl_permute_function_shape);
    ("transpose", shapes_tranpose);
    ("select", shapes_select);
    ("index_select", shapes_select);
    ("sin", rule shapes_identity);
    ("cos", rule shapes_identity);
    ("tan", rule shapes_identity);
    ("asin", rule shapes_identity);
    ("acos", rule shapes_identity);
    ("atan", rule shapes_identity);
    ("sinh", rule shapes_identity);
    ("cosh", rule shapes_identity);
    ("tanh", rule shapes_identity);
    ("asinh", rule shapes_identity);
    ("acosh", rule shapes_identity);
    ("atanh", rule shapes_identity);
    ("sigmoid", rule shapes_identity);
    ("hardsigmoid", rule shapes_identity);
    ("softmax", rule shapes_identity);
    ("relu", rule shapes_identity);
    ("relu6", rule shapes_identity);
    ("leaky_relu", rule shapes_identity);
    ("binary_cross_entropy", rule shapes_reduce_dims);
    ("binary_cross_entropy_with_logits", rule shapes_reduce_dims);
    ("elu", rule shapes_identity);
    ("gelu", rule shapes_identity);
    ("dropout", rule shapes_identity);
    ("batch_norm", rule shapes_identity);
    ("layer_norm", rule shapes_identity);
    ("linear", shapes_linear);
    ("embedding", shapes_embedding);
    ("pad", shapes_pad);
    ("conv1d", shapes_conv);
    ("conv2d", shapes_conv);
    ("conv3d", shapes_conv);
    ("conv_transpose1d", shapes_conv_transpose);
    ("conv_transpose2d", shapes_conv_transpose);
    ("conv_transpose3d", shapes_conv_transpose);
    ("max_pool1d", shapes_maxpool);
    ("max_pool2d", shapes_maxpool);
    ("max_pool3d", shapes_maxpool);
    ("avg_pool1d", shapes_avgpool);
    ("avg_pool2d", shapes_avgpool);
    ("avg_pool3d", shapes_avgpool);
    ("__floordiv__", rule NeverImplementedError_raise_error)
  ];
|}.

(** The classes that [__torch_function__] receives in [types]:
    [LazyTensor], [Tensor], [int], [float], [bool] (or a subclass of one
    of them), or any other class. *)
Inductive PyType : Type :=
| type_LazyTensor
| type_Tensor
| type_int
| type_float
| type_bool
| type_other (name : string).

Definition handled_type (typ : PyType) : bool :=
  match typ with
  | type_other _ => false
  | _ => true
  end.

(** [func.__name__]. *)
Definition __name__ (func : Callable) : string :=
  match func with
  | Tensor_method name => name
  | torch_function name => name
  end.

(** What [size] returns: the whole tuple, or one entry. *)
Inductive SizeResult : Type :=
| size_tuple (shape : list Z)
| size_int (n : Z).

Section surface.
Context `{Torch} `{!TorchOps}.

(** More of the host library: [t.size()], [t.size(dim)], whether the
    class [Tensor] has an attribute of a given name, and the shape
    functions of [SHAPE_OPS] as functions over operands. *)
Variable Tensor_size : Tensor → list Z.
Variable Tensor_size_dim : Tensor → Z → result Z.
Variable Tensor_hasattr : string → bool.
Variable shape_impl : ShapeImpl → ShapeFunction.

(** ** [size] and [__len__] *)
Definition Evaluation_size (self : Evaluation) (dim : option Z)
  : result SizeResult :=
  let shape := value (shape self) in
  match dim with
  | Some dim => size_int <$> Py.getitem shape dim
  | None => Ok (size_tuple shape)
  end.

Fixpoint LazyTensor_size (self : LazyTensor) (dim : option Z)
  : result SizeResult :=
  match self with
  | MkLazyTensor data _ =>
      match data with
      | VTensor data =>
          match dim with
          | None => Ok (size_tuple (Tensor_size data))
          | Some dim => size_int <$> Tensor_size_dim data dim
          end
      | VLazy data => LazyTensor_size data dim
      | VEval data => Evaluation_size data dim
      | _ => raise AttributeError
      end
  end.

Definition LazyTensor___len__ (self : LazyTensor) : result SizeResult :=
  LazyTensor_size self (Some 0).

(** ** [__getitem__]: a runnable storage is run in full first. *)
Definition LazyTensor___getitem__ (self : LazyTensor) (index : Index)
  : result Tensor :=
  match _data self with
  | VLazy data => data ← LazyTensor_run data None; Tensor_getitem data index
  | VEval data => data ← Evaluation_run data None; Tensor_getitem data index
  | VTensor data => Tensor_getitem data index
  | _ => raise TypeError
  end.

(** ** Dispatch *)

(** [kwargs] without the entry for [key], and whether it has one. *)
Fixpoint dict_remove (kwargs : list (string * Value)) (key : string)
  : list (string * Value) :=
  match kwargs with
  | [] => []
  | (k, v) :: rest =>
      if String.eqb k key then dict_remove rest key
      else (k, v) :: dict_remove rest key
  end.

Definition dict_has (kwargs : list (string * Value)) (key : string) : bool :=
  existsb (λ kv, String.eqb kv.1 key) kwargs.

(** Calling [_min] or [_max] on unpacked arguments: the first positional
    argument, or else the keyword [input], becomes [input]; a call that
    gives it twice or not at all is a [TypeError]. *)
Definition call_custom
    (impl : Value → list Value → list (string * Value) → result MinMax)
    (args : list Value) (kwargs : list (string * Value)) : result MinMax :=
  match args with
  | input :: rest =>
      if dict_has kwargs "input" then raise TypeError
      else impl input rest kwargs
  | [] =>
      if dict_has kwargs "input"
      then impl (dict_get kwargs "input" VNone) [] (dict_remove kwargs "input")
      else raise TypeError
  end.

Definition custom_function (g : bool) (impl : CustomImpl)
  : Value → list Value → list (string * Value) → result MinMax :=
  match impl with
  | impl_min => _min g
  | impl_max => _max g
  end.

(** What a dispatch returns: [NotImplemented], or a result. *)
Inductive Dispatched : Type :=
| NotImplemented
| Returned (r : MinMax).

(** The eager branch of [__torch_function__]: every operand is run, then
    the function is called. *)
Definition evaluate_eagerly (func : Callable) (args : list Value)
    (kwargs : list (string * Value)) : result Tensor :=
  args ← run_args args None;
  kwargs ← run_kwargs kwargs None;
  call func args kwargs.

Definition LazyTensor___torch_function__ (g : bool) (func : Callable)
    (types : list PyType) (args : list Value)
    (kwargs : option (list (string * Value))) : result Dispatched :=
  let kwargs := default [] kwargs in
  if negb (forallb handled_type types) then Ok NotImplemented
  else
    let name := __name__ func in
    match lookup_function CUSTOM_OPS name with
    | Some custom_impl =>
        Returned <$> call_custom (custom_function g custom_impl) args kwargs
    | None =>
        match lookup_function SHAPE_OPS name with
        | Some impl =>
            (λ v, Returned (Single v))
              <$> lazy_forward g func (shape_impl impl) args kwargs
        | None =>
            (λ t, Returned (Single (VTensor t)))
              <$> evaluate_eagerly func args kwargs
        end
    end.

(** [__getattr__] followed by the call of the callable it returns.  In
    the eager branch [run(self)] is the first argument and the remaining
    arguments are passed as they are. *)
Definition LazyTensor___getattr__ (g : bool) (self : LazyTensor)
    (name : string) (args : list Value) (kwargs : list (string * Value))
  : result MinMax :=
  if negb (Tensor_hasattr name) then raise AttributeError
  else
    let method := Tensor_method name in
    match lookup_method CUSTOM_OPS name with
    | Some custom_impl =>
        call_custom (custom_function g custom_impl) (VLazy self :: args) kwargs
    | None =>
        match lookup_method SHAPE_OPS name with
        | Some impl =>
            Single <$> lazy_forward g method (shape_impl impl)
                         (VLazy self :: args) kwargs
        | None =>
            data ← LazyTensor_run self None;
            (λ t, Single (VTensor t)) <$> call method (VTensor data :: args) kwargs
        end
    end.

End surface.
End tensors.

(* ===================================================================== *)
(** * A concrete host: rank-1 integer tensors *)
(* ===================================================================== *)

(** A small host used to run the graph on examples.  A tensor is a list of
    integers, its shape is the one-element tuple of its length, an index
    is a slice [start:stop], and the host knows elementwise addition,
    minimum and maximum of two tensors of equal length. *)
Module ListHost.

Definition torch : Torch := {|
  Tensor := list Z;
  Float := Z;
  DType := unit;
  Device := unit;
  Index := nat * nat;
  Size := list Z;
|}.

Abbreviation Value := (@tensors.Value torch).
Abbreviation Shape := (@tensors.Shape torch).

Definition meta : @tensors.MetaData torch :=
  {| tensors.dtype := tt : @DType torch;
     tensors.device := tt : @Device torch;
     tensors.batch := None |}.

Definition shape_of (t : list Z) : Shape :=
  {| tensors.value := [Py.len t]; tensors.metadata := meta |}.

Definition binary (op : Z → Z → Z) (a b : list Z) : result (list Z) :=
  if Py.len a =? Py.len b then Ok (zip_with op a b)
  else raise (RuntimeError "size mismatch").

Definition host_call (f : Callable) (args : list Value)
    (kwargs : list (string * Value)) : result (list Z) :=
  match f, args, kwargs with
  | Tensor_method name, [tensors.VTensor a; tensors.VTensor b], [] =>
      if String.eqb name "__add__" then binary Z.add a b else raise TypeError
  | torch_function name, [tensors.VTensor a; tensors.VTensor b], [] =>
      if String.eqb name "minimum" then binary Z.min a b
      else if String.eqb name "maximum" then binary Z.max a b
      else raise TypeError
  | _, _, _ => raise TypeError
  end.

Definition host_getitem (t : list Z) (i : nat * nat) : result (list Z) :=
  Ok (take (i.2 - i.1)%nat (drop i.1 t)).

(** The size of an operand: a scalar has the empty shape. *)
Definition size_of (v : Value) : result (list Z) :=
  match v with
  | tensors.VTensor t => Ok [Py.len t]
  | tensors.VLazy (tensors.MkLazyTensor (tensors.VTensor t) _) => Ok [Py.len t]
  | tensors.VLazy (tensors.MkLazyTensor (tensors.VEval e) _)
  | tensors.VEval e => Ok (tensors.value (tensors.shape e))
  | tensors.VBool _ | tensors.VInt _ | tensors.VFloat _ => Ok []
  | _ => raise TypeError
  end.

(** The shape functions of this host: a rule of [shapes.py] applied to the
    sizes of the operands.  This reading of the operands is the host's own
    (it stands for the wrappers around shape tuples that [tensors.py]
    imports); [tensors.py] itself passes the operands as they are. *)
Definition host_shape_function (r : ShapeRule) (args : list Value)
    (kwargs : list (string * Value)) : result Shape :=
  match r, args with
  | shapes_identity, [a] =>
      sa ← size_of a;
      Ok {| tensors.value := sa; tensors.metadata := meta |}
  | shapes_symmetric, [a; b] =>
      sa ← size_of a; sb ← size_of b; v ← shapes.symmetric sa sb;
      Ok {| tensors.value := v; tensors.metadata := meta |}
  | shapes_matmul, [a; b] =>
      sa ← size_of a; sb ← size_of b; v ← shapes.matmul sa sb;
      Ok {| tensors.value := v; tensors.metadata := meta |}
  | NeverImplementedError_raise_error, _ => raise NeverImplementedError
  | _, _ => raise TypeError
  end.

Definition host_shape (t : list Z) : list Z := [Py.len t].

Definition host_shape_eq (s : Shape) (z : list Z) : bool :=
  bool_decide (tensors.value s = z).

Definition ops : @tensors.TorchOps torch :=
  @tensors.Build_TorchOps torch host_call host_getitem host_shape
    host_shape_eq host_shape_function.

(** Sample objects: a stored tensor, the first-row slice, and two nodes
    recording [Tensor.__add__] on two stored tensors, without and with
    a callback. *)
Definition tensor (l : list Z) : @Tensor torch := l.
Definition stored : @Tensor torch := tensor [1; 2; 3].
Definition first_row : @tensors.PartialInfo torch :=
  {| tensors.index := (0%nat, 1%nat) : @Index torch |}.
Definition leaf (t : list Z) : Value :=
  tensors.VLazy (tensors.MkLazyTensor (@tensors.VTensor torch t) None).
Definition add_node (predicted : list Z)
    (cb : option (list Z → result (list Z))) : @tensors.Evaluation torch :=
  @tensors.MkEvaluation torch (Tensor_method "__add__")
    {| tensors.value := predicted; tensors.metadata := meta |}
    cb [leaf [1; 2; 3]; leaf [10; 20; 30]] [].

(** A node whose operands do not fit, and the slice that keeps them
    whole. *)
Definition whole_slice : @tensors.PartialInfo torch :=
  {| tensors.index := (0%nat, 3%nat) : @Index torch |}.
Definition mismatched_add_node : @tensors.Evaluation torch :=
  @tensors.MkEvaluation torch (Tensor_method "__add__")
    {| tensors.value := [3]; tensors.metadata := meta |}
    None [leaf [1; 2; 3]; leaf [10; 20]] [].

(** The lazy tensor that wraps the node without a callback. *)
Definition deferred_sum : Value :=
  tensors.VLazy (tensors.MkLazyTensor (tensors.VEval (add_node [3] None)) None).

(** The rest of the host: sizes, attributes (every name is an attribute of
    the tensor class) and the shape functions of the registry. *)
Definition host_size (t : @Tensor torch) : list Z := [Py.len (t : list Z)].

Definition host_size_dim (t : @Tensor torch) (dim : Z) : result Z :=
  Py.getitem [Py.len (t : list Z)] dim.

Definition host_hasattr (name : string) : bool := true.

Definition host_shape_impl (impl : tensors.ShapeImpl)
    (args : list Value) (kwargs : list (string * Value)) : result Shape :=
  match impl with
  | tensors.rule r => host_shape_function r args kwargs
  | _ => raise TypeError
  end.

End ListHost.

Example permute_235 : shapes.permute [2; 3; 5] [2; 0; 1] = Ok [5; 2; 3].
Proof. vm_compute. reflexivity. Qed.

Example matmul_43_35 : shapes.matmul [4; 3] [3; 5] = Ok [4; 5].
Proof. vm_compute. reflexivity. Qed.

Example matmul_43_75 : shapes.matmul [4; 3] [7; 5] = Err (ValueError None).
Proof. vm_compute. reflexivity. Qed.

Example matmul_scalar_operand :
  shapes.matmul [] [3]
  = Err (ValueError (Some
      "Both arguments to matmul need to be at least 1D. Got 0D and 1D.")).
Proof. vm_compute. reflexivity. Qed.

(* ===================================================================== *)
(** * Facts about the shape algebra *)
(* ===================================================================== *)

Section reduce_dims_facts.
Import shapes.

Lemma reduce_step_no_keepdim dimensions shapes d :
  reduce_step dimensions false shapes d = shapes.
Proof. unfold reduce_step. by case_bool_decide. Qed.

Lemma reduce_loop_no_keepdim dimensions input shapes :
  foldl (reduce_step dimensions false) shapes input = shapes.
Proof.
  revert shapes. induction input as [|d input IH]; intros shapes; [done|].
  cbn [foldl]. by rewrite reduce_step_no_keepdim.
Qed.

(** Without [keepdim] nothing is ever appended. *)
Lemma reduce_dims_no_keepdim input dim :
  reduce_dims input dim false = Ok [].
Proof. unfold reduce_dims. by rewrite reduce_loop_no_keepdim. Qed.

Lemma scalar_ok input : scalar input = Ok [].
Proof. unfold scalar. by rewrite reduce_dims_no_keepdim. Qed.

(** With [keepdim] the loop appends one [1] per entry whose size is a
    member of the axis set. *)
Lemma reduce_loop_keepdim dimensions input shapes :
  foldl (reduce_step dimensions true) shapes input
  = shapes ++ replicate (length (filter (.∈ dimensions) input)) 1.
Proof.
  revert shapes. induction input as [|d input IH]; intros shapes; simpl.
  { by rewrite app_nil_r. }
  rewrite IH. unfold reduce_step. rewrite filter_cons.
  case_bool_decide as Hd; destruct (decide (d ∈ dimensions)); try done.
  simpl. by rewrite <-app_assoc.
Qed.

Lemma filter_keeps_all_iff (dimensions : gset Z) (input : list Z) :
  length (filter (.∈ dimensions) input) = length input ↔
  Forall (.∈ dimensions) input.
Proof.
  induction input as [|d input IH]; [by split|].
  rewrite filter_cons, Forall_cons.
  pose proof (length_filter (.∈ dimensions) input) as Hle.
  destruct (decide (d ∈ dimensions)); simpl.
  - rewrite <-IH. split; [intros; split; [done|lia]|intros [_ ?]; lia].
  - split; [lia|tauto].
Qed.

(** So with [keepdim] the call succeeds exactly when every size of the
    shape is itself a member of the axis set, and then returns all ones. *)
Lemma reduce_dims_keepdim input dim :
  reduce_dims input dim true =
    if bool_decide (Forall (.∈ dimensions_of dim) input)
    then Ok (replicate (length input) 1)
    else Err AssertionError.
Proof.
  unfold reduce_dims. rewrite reduce_loop_keepdim. simpl.
  unfold Py.len. rewrite length_replicate.
  case_bool_decide as Hall.
  - apply filter_keeps_all_iff in Hall. rewrite Hall.
    by rewrite Z.eqb_refl.
  - rewrite <-filter_keeps_all_iff in Hall.
    destruct (Z.eqb_spec (Z.of_nat (length (filter (.∈ dimensions_of dim) input)))
                (Z.of_nat (length input))) as [Heq|]; [|done].
    apply Nat2Z.inj in Heq. done.
Qed.
End reduce_dims_facts.

(** C1 (the code departs from the claim).  [reduce_dims] iterates over the
    sizes stored in the shape, not over its axes, and never copies a size
    that is not reduced: without [keepdim] it returns the empty shape for
    every input, so [reduce_dims((2, 3, 5), 0)] is [()] and not [(3, 5)];
    with [keepdim] the same call fails the function's own length
    assertion. *)
Theorem C1_reduce_dims_drops_everything :
  (∀ input dim, shapes.reduce_dims input dim false = Ok []) ∧
  shapes.reduce_dims [2; 3; 5] (shapes.DimInt 0) false = Ok [] ∧
  shapes.reduce_dims [2; 3; 5] (shapes.DimInt 0) true = Err AssertionError ∧
  shapes.reduce_dims [2; 3; 5] (shapes.DimInt 2) true = Err AssertionError.
Proof.
  split; [apply reduce_dims_no_keepdim|].
  split; [apply reduce_dims_no_keepdim|].
  split; vm_compute; reflexivity.
Qed.

(** ** [sorted] returns the sorted rearrangement of its argument *)

Section sorted_facts.
Context {A : Type} (lt : A → A → bool) (R : relation A).
Hypothesis lt_true : ∀ x y, lt y x = true → R y x.
Hypothesis lt_false : ∀ x y, lt y x = false → R x y.

Lemma insert_Permutation x l : Py.insert lt x l ≡ₚ x :: l.
Proof.
  induction l as [|y l IH]; simpl; [done|].
  destruct (lt y x); [|done].
  rewrite IH. apply Permutation_swap.
Qed.

Lemma sorted_Permutation l : Py.sorted lt l ≡ₚ l.
Proof.
  induction l as [|x l IH]; simpl; [done|].
  by rewrite insert_Permutation, IH.
Qed.

Lemma sorted_length l : length (Py.sorted lt l) = length l.
Proof. apply Permutation_length, sorted_Permutation. Qed.

Lemma HdRel_insert y x l :
  R y x → HdRel R y l → HdRel R y (Py.insert lt x l).
Proof.
  intros Hyx Hl. destruct l as [|z l]; simpl; [by constructor|].
  inversion_clear Hl. destruct (lt z x); by constructor.
Qed.

Lemma Sorted_insert x l : Sorted R l → Sorted R (Py.insert lt x l).
Proof.
  induction 1 as [|y l Hl IH Hhd]; simpl; [by repeat constructor|].
  destruct (lt y x) eqn:Hlt.
  - constructor; [done|]. apply HdRel_insert; auto.
  - constructor; [by constructor|]. constructor. auto.
Qed.

Lemma Sorted_sorted l : Sorted R (Py.sorted lt l).
Proof.
  induction l as [|x l IH]; simpl; [constructor|].
  by apply Sorted_insert.
Qed.
End sorted_facts.

#[local] Instance pair_le_trans : Transitive pair_le.
Proof. intros [??] [??] [??]; unfold pair_le; simpl; lia. Qed.

#[local] Instance pair_le_antisymm : AntiSymm (=) pair_le.
Proof.
  intros [a b] [c d]; unfold pair_le; simpl; intros ??.
  assert (a = c ∧ b = d) as [-> ->] by lia. done.
Qed.

Lemma Sorted_int_sorted (l : list Z) : Sorted Z.le (Py.sorted Py.int_lt l).
Proof.
  apply Sorted_sorted; unfold Py.int_lt; intros x y H.
  - apply Z.ltb_lt in H. lia.
  - apply Z.ltb_ge in H. lia.
Qed.

Lemma Sorted_key_sorted (l : list (Z * Z)) :
  Sorted (λ p q, p.2 ≤ q.2) (Py.sorted Py.key_snd_lt l).
Proof.
  apply Sorted_sorted; unfold Py.key_snd_lt; intros x y H.
  - apply Z.ltb_lt in H. lia.
  - apply Z.ltb_ge in H. lia.
Qed.

Lemma Sorted_pair_sorted (l : list (Z * Z)) :
  Sorted pair_le (Py.sorted Py.pair_lt l).
Proof.
  apply Sorted_sorted; unfold Py.pair_lt, pair_le; intros [a b] [c d]; simpl.
  - rewrite orb_true_iff, andb_true_iff, !Z.ltb_lt, Z.eqb_eq. lia.
  - rewrite orb_false_iff, andb_false_iff, !Z.ltb_ge, Z.eqb_neq. lia.
Qed.

Lemma Sorted_seqZ m n : Sorted Z.le (seqZ m n).
Proof.
  destruct (decide (0 ≤ n)) as [Hn|Hn]; [|rewrite seqZ_nil by lia; constructor].
  rewrite <-(Z2Nat.id n) by done. clear Hn.
  generalize (Z.to_nat n) as k. intros k. revert m.
  induction k as [|k IH]; intros m.
  - rewrite seqZ_nil by lia. constructor.
  - rewrite seqZ_cons by lia.
    replace (Z.pred (Z.of_nat (S k))) with (Z.of_nat k) by lia.
    constructor; [apply IH|].
    destruct k as [|k]; [rewrite seqZ_nil by lia; constructor|].
    rewrite seqZ_cons by lia. constructor. lia.
Qed.

(** Pairing an increasing run of indices with anything is sorted as a
    list of pairs. *)
Lemma Sorted_zip_seqZ (ys : list Z) m n : Sorted pair_le (zip (seqZ m n) ys).
Proof.
  destruct (decide (0 ≤ n)) as [Hn|Hn]; [|rewrite seqZ_nil by lia; constructor].
  rewrite <-(Z2Nat.id n) by done. clear Hn.
  generalize (Z.to_nat n) as k. intros k. revert m ys.
  induction k as [|k IH]; intros m ys.
  - rewrite seqZ_nil by lia. constructor.
  - rewrite seqZ_cons by lia.
    replace (Z.pred (Z.of_nat (S k))) with (Z.of_nat k) by lia.
    destruct ys as [|y ys]; simpl; [constructor|].
    constructor; [apply IH|].
    destruct k as [|k]; [rewrite seqZ_nil by lia; constructor|].
    rewrite seqZ_cons by lia.
    destruct ys as [|y' ys]; simpl; constructor.
    unfold pair_le; simpl; lia.
Qed.

(** ** [permute] *)

Section permute_facts.
Import shapes.

Lemma length_range n : length (Py.range n) = Z.to_nat n.
Proof. apply length_seqZ. Qed.

(** The first validity test of [permute] decides "is a permutation of
    [0 .. len(dims) - 1]". *)
Lemma sorted_range_iff (dims : list Z) :
  Py.sorted Py.int_lt dims = Py.range (Py.len dims) ↔
  dims ≡ₚ Py.range (Py.len dims).
Proof.
  split.
  - intros <-. symmetry. apply sorted_Permutation.
  - intros Hp. apply (Sorted_unique Z.le).
    + apply Sorted_int_sorted.
    + apply Sorted_seqZ.
    + by rewrite sorted_Permutation.
Qed.

Lemma size_set_of_permutation (dims : list Z) :
  dims ≡ₚ Py.range (Py.len dims) →
  Z.of_nat (size (list_to_set dims : gset Z)) = Py.len dims.
Proof.
  intros Hp. unfold Py.len. f_equal. apply size_list_to_set.
  rewrite Hp. apply NoDup_seqZ.
Qed.

Lemma tuple_as_range_image (input : list Z) :
  input = at_axis input <$> Py.range (Py.len input).
Proof.
  apply list_eq. intros i. rewrite list_lookup_fmap.
  unfold Py.range, Py.len, at_axis.
  destruct (input !! i) as [x|] eqn:Hi.
  - rewrite lookup_seqZ_lt by (apply lookup_lt_Some in Hi; lia).
    simpl. replace (Z.to_nat (0 + Z.of_nat i)) with i by lia.
    by rewrite Hi.
  - rewrite lookup_seqZ_ge by (apply lookup_ge_None in Hi; lia). done.
Qed.

(** The reordering computed by the two sorts. *)
Lemma permute_reorders (input dims : list Z) :
  length input = length dims →
  dims ≡ₚ Py.range (Py.len dims) →
  (Py.sorted Py.pair_lt
     (zip (Py.sorted Py.key_snd_lt (Py.enumerate dims)).*1 input)).*2
  = at_axis input <$> dims.
Proof.
  intros Hlen Hp.
  set (L := Py.enumerate dims).
  set (L' := Py.sorted Py.key_snd_lt L).
  assert (HL2 : L.*2 = dims).
  { unfold L, Py.enumerate. apply snd_zip.
    rewrite length_range. unfold Py.len. lia. }
  assert (HL1 : L.*1 = Py.range (Py.len dims)).
  { unfold L, Py.enumerate. apply fst_zip.
    rewrite length_range. unfold Py.len. lia. }
  assert (HL' : L' ≡ₚ L) by apply sorted_Permutation.
  assert (HL'2 : L'.*2 = Py.range (Py.len dims)).
  { apply (Sorted_unique Z.le).
    - apply (Sorted_fmap snd (λ p q, p.2 ≤ q.2)); [done|].
      apply Sorted_key_sorted.
    - apply Sorted_seqZ.
    - by rewrite HL', HL2. }
  set (g := λ p : Z * Z, (p.1, at_axis input p.2)).
  assert (Hzip : zip L'.*1 input = g <$> L').
  { rewrite (tuple_as_range_image input) at 1.
    unfold Py.len. rewrite Hlen. fold (Py.len dims). rewrite <-HL'2.
    rewrite <-(zip_fst_snd (g <$> L')).
    rewrite <-!list_fmap_compose. done. }
  assert (HT : g <$> L = zip (Py.range (Py.len dims)) (at_axis input <$> dims)).
  { rewrite <-(zip_fst_snd (g <$> L)), <-!list_fmap_compose.
    change (fst ∘ g) with (@fst Z Z).
    change (snd ∘ g) with (at_axis input ∘ @snd Z Z).
    rewrite (list_fmap_compose (@snd Z Z) (at_axis input)).
    by rewrite HL1, HL2. }
  rewrite Hzip.
  assert (Hsorted : Py.sorted Py.pair_lt (g <$> L') = g <$> L).
  { apply (Sorted_unique pair_le).
    - apply Sorted_pair_sorted.
    - rewrite HT. apply Sorted_zip_seqZ.
    - by rewrite sorted_Permutation, HL'. }
  rewrite Hsorted, HT. apply snd_zip.
  rewrite length_fmap, length_range. unfold Py.len. lia.
Qed.

(** A valid permutation passes the three tests. *)
Lemma permute_valid (input dims : list Z) :
  length input = length dims →
  dims ≡ₚ Py.range (Py.len dims) →
  permute input dims = Ok (at_axis input <$> dims).
Proof.
  intros Hlen Hp. unfold permute.
  replace (Py.len input) with (Py.len dims) by (unfold Py.len; lia).
  rewrite Z.eqb_refl. simpl.
  rewrite bool_decide_eq_true_2 by (by apply sorted_range_iff). simpl.
  rewrite size_set_of_permutation, Z.eqb_refl by done. simpl.
  by rewrite permute_reorders.
Qed.

Lemma permute_wrong_length (input dims : list Z) :
  length input ≠ length dims → permute input dims = Err TypeError.
Proof.
  intros Hlen. unfold permute, Py.len.
  destruct (Z.eqb_spec (Z.of_nat (length input)) (Z.of_nat (length dims)));
    [lia|done].
Qed.

Lemma permute_not_permutation (input dims : list Z) :
  length input = length dims →
  ¬ dims ≡ₚ Py.range (Py.len dims) →
  permute input dims = Err (ValueError None).
Proof.
  intros Hlen Hnp. unfold permute.
  replace (Py.len input) with (Py.len dims) by (unfold Py.len; lia).
  rewrite Z.eqb_refl. simpl.
  rewrite bool_decide_eq_false_2; [done|].
  by rewrite sorted_range_iff.
Qed.
End permute_facts.

Section matmul_facts.
Import shapes.

Local Ltac run_matmul :=
  cbv [matmul prepends Py.getitem Py.len Py.drop_last2 Py.repeat_tuple
       Py.tuple_eq_int py_assert raise mbind result_bind];
  simpl.

(** matrix · vector falls through to the batched rule, where the vector
    has become the row [(1, k)]. *)
Lemma matmul_matrix_vector m k :
  matmul [m; k] [k] = if k =? 1 then Ok [m; 1] else Err (ValueError None).
Proof.
  run_matmul.
  destruct (k =? 1) eqn:Hk; simpl; [|done].
  apply Z.eqb_eq in Hk. by subst.
Qed.

Lemma matmul_matrix_vector_any m k j :
  matmul [m; k] [j] = if k =? 1 then Ok [m; j] else Err (ValueError None).
Proof. run_matmul. by destruct (k =? 1). Qed.

(** vector · matrix falls through as well; the vector is the row
    [(1, j)]. *)
Lemma matmul_vector_matrix j k n :
  matmul [j] [k; n] = if j =? k then Ok [1; n] else Err (ValueError None).
Proof. run_matmul. by destruct (j =? k). Qed.
End matmul_facts.

(** C2 (the code departs from the claim).  The two special cases test
    [other == 2] and [other == 1], a tuple against an integer, so they
    never fire: matrix · vector reaches the batched rule and is rejected
    unless [k = 1], vector · matrix returns [(1, n)] instead of [(n,)],
    and a mismatching vector is accepted when the matrix has one column. *)
Theorem C2_matmul_vector_cases_unreachable :
  (∀ m k, shapes.matmul [m; k] [k] ≠ Ok [m]) ∧
  (∀ k n, shapes.matmul [k] [k; n] = Ok [1; n]) ∧
  shapes.matmul [2; 3] [3] = Err (ValueError None) ∧
  shapes.matmul [3] [3; 5] = Ok [1; 5] ∧
  shapes.matmul [2; 1] [5] = Ok [2; 5].
Proof.
  split.
  { intros m k. rewrite matmul_matrix_vector. by destruct (k =? 1). }
  split.
  { intros k n. rewrite matmul_vector_matrix. by rewrite Z.eqb_refl. }
  split; [|split]; vm_compute; reflexivity.
Qed.

(** C7.  For a shape [s] and an argument list [dims]: a length different
    from the rank raises [TypeError]; a list of the right length that is
    not a rearrangement of [0 .. rank-1] raises [ValueError]; and for a
    rearrangement of [0 .. rank-1] the call returns a shape [t] of the same
    rank with [t[i] = s[dims[i]]] at every axis [i]. *)
Theorem C7_permute_spec (s dims : list Z) :
  (length dims ≠ length s → shapes.permute s dims = Err TypeError) ∧
  (length dims = length s → ¬ dims ≡ₚ Py.range (Py.len s) →
     shapes.permute s dims = Err (ValueError None)) ∧
  (dims ≡ₚ Py.range (Py.len s) →
     ∃ t, shapes.permute s dims = Ok t ∧ length t = length s ∧
          ∀ i, (i < length s)%nat →
               ∃ d x, dims !! i = Some d ∧ Py.getitem s d = Ok x ∧
                      t !! i = Some x).
Proof.
  split; [|split].
  - intros Hlen. by apply permute_wrong_length.
  - intros Hlen Hnp. apply permute_not_permutation; [done|].
    unfold Py.len in *. by rewrite Hlen.
  - intros Hp.
    assert (Hlen : length dims = length s).
    { apply Permutation_length in Hp. rewrite length_range in Hp.
      unfold Py.len in Hp. lia. }
    assert (Hp' : dims ≡ₚ Py.range (Py.len dims))
      by (unfold Py.len in *; by rewrite Hlen).
    exists (at_axis s <$> dims). split; [by apply permute_valid|].
    split; [by rewrite length_fmap|].
    intros i Hi.
    destruct (lookup_lt_is_Some_2 dims i) as [d Hd]; [lia|].
    assert (Hin : d ∈ Py.range (Py.len s)).
    { rewrite <-Hp. by eapply list_elem_of_lookup_2. }
    apply elem_of_seqZ in Hin. unfold Py.len in Hin.
    destruct (lookup_lt_is_Some_2 s (Z.to_nat d)) as [x Hx]; [lia|].
    exists d, x. split; [done|]. split.
    + unfold Py.getitem, Py.len.
      destruct (Z.ltb_spec d 0); [lia|].
      destruct (Z.ltb_spec d 0); [lia|]. simpl.
      destruct (Z.leb_spec (Z.of_nat (length s)) d); [lia|].
      by rewrite Hx.
    + rewrite list_lookup_fmap, Hd. simpl. unfold at_axis. by rewrite Hx.
Qed.

Lemma C7_permute_witness :
  [2; 0; 1] ≡ₚ Py.range (Py.len [2; 3; 5]) ∧
  ∃ t, shapes.permute [2; 3; 5] [2; 0; 1] = Ok t ∧ length t = 3%nat ∧
       ∀ i, (i < 3)%nat →
            ∃ d x, [2; 0; 1] !! i = Some d ∧ Py.getitem [2; 3; 5] d = Ok x ∧
                   t !! i = Some x.
Proof.
  assert (Hp : [2; 0; 1] ≡ₚ Py.range (Py.len [2; 3; 5])).
  { apply (sorted_range_iff [2; 0; 1]). vm_compute. reflexivity. }
  split; [exact Hp|].
  exact (proj2 (proj2 (C7_permute_spec [2; 3; 5] [2; 0; 1])) Hp).
Defined.

(* ===================================================================== *)
(** * Facts about the lazy-evaluation graph *)
(* ===================================================================== *)

Section graph_facts.
Context `{Torch} `{!tensors.TorchOps}.
Import tensors.

(** [Evaluation.run], step by step. *)
Lemma Evaluation_run_unfold (e : Evaluation) (partial : option PartialInfo) :
  Evaluation_run e partial =
    real_args ← run_args (args e) partial;
    real_kwargs ← run_kwargs (kwargs e) partial;
    raw ← call (func e) real_args real_kwargs;
    finish_run e partial raw.
Proof. destruct e, partial; reflexivity. Qed.

Lemma finish_run_Ok (e : Evaluation) partial raw t :
  finish_run e partial raw = Ok t →
  Shape_eq (shape e) (Tensor_shape t) = true.
Proof.
  unfold finish_run. intros Hrun.
  destruct (match partial with Some _ => _ | None => _ end) as [res|];
    simpl in Hrun; [|done].
  destruct (Shape_eq (shape e) (Tensor_shape res)) eqn:Heq;
    simpl in Hrun; [|done].
  by injection Hrun as <-.
Qed.

Lemma finish_run_no_callback (e : Evaluation) p raw :
  callback e = None →
  finish_run e (Some p) raw = Err (UnsupportedError "Cannot safely parallelize.").
Proof. unfold finish_run. by intros ->. Qed.

Lemma Evaluation_run_Ok_inv (e : Evaluation) partial t :
  Evaluation_run e partial = Ok t →
  ∃ real_args real_kwargs raw,
    run_args (args e) partial = Ok real_args ∧
    run_kwargs (kwargs e) partial = Ok real_kwargs ∧
    call (func e) real_args real_kwargs = Ok raw ∧
    finish_run e partial raw = Ok t.
Proof.
  rewrite Evaluation_run_unfold. intros Hrun.
  destruct (run_args _ _) as [ra|]; simpl in Hrun; [|done].
  destruct (run_kwargs _ _) as [rk|]; simpl in Hrun; [|done].
  destruct (call _ _ _) as [raw|] eqn:Hcall; simpl in Hrun; [|done].
  by exists ra, rk, raw.
Qed.

(** C3 (as amended).  On a lazy tensor whose storage is a host tensor,
    [run] without a partial descriptor returns the stored tensor itself,
    and [run] with a partial descriptor [p] returns the stored tensor
    indexed by [p.index]; the module-level [run] agrees. *)
Theorem C3_run_materialized (t : Tensor) (b : option Z) (p : PartialInfo) :
  LazyTensor_run (MkLazyTensor (VTensor t) b) None = Ok t ∧
  LazyTensor_run (MkLazyTensor (VTensor t) b) (Some p)
    = Tensor_getitem t (index p) ∧
  run (VLazy (MkLazyTensor (VTensor t) b)) None = Ok (VTensor t) ∧
  run (VLazy (MkLazyTensor (VTensor t) b)) (Some p)
    = VTensor <$> Tensor_getitem t (index p).
Proof. repeat split. Qed.

(** C4 (the code departs from the claim).  [LazyTensor.batch] has no
    [return]: it answers [None] whatever batch index the tensor was built
    with, while [Evaluation.batch] reports the index recorded in the
    node's shape metadata. *)
Theorem C4_batch_is_dropped :
  (∀ (t : Tensor) (b : Z),
     _batch (LazyTensor_init (VTensor t) (Some b)) = Some b ∧
     LazyTensor_batch (LazyTensor_init (VTensor t) (Some b)) = None) ∧
  (∀ l : LazyTensor, LazyTensor_batch l = None) ∧
  (∀ e : Evaluation, Evaluation_batch e = batch (metadata (shape e))).
Proof. repeat split. Qed.

(** C5 (as amended).  Under a partial descriptor a node first evaluates
    its operands and calls the recorded operation; an error raised there
    is the error of the run.  Past that point a node without a callback
    raises [UnsupportedError("Cannot safely parallelize.")], so such a run
    never returns a tensor; a node with a callback applies it to the raw
    result of the recorded operation (and then checks the shape). *)
Theorem C5_partial_run_requires_callback (e : Evaluation) (p : PartialInfo) :
  (callback e = None →
     Evaluation_run e (Some p)
       = (real_args ← run_args (args e) (Some p);
          real_kwargs ← run_kwargs (kwargs e) (Some p);
          raw ← call (func e) real_args real_kwargs;
          raise (UnsupportedError "Cannot safely parallelize.")) ∧
     ∀ t, Evaluation_run e (Some p) ≠ Ok t) ∧
  (∀ cb, callback e = Some cb →
     Evaluation_run e (Some p)
       = (real_args ← run_args (args e) (Some p);
          real_kwargs ← run_kwargs (kwargs e) (Some p);
          raw ← call (func e) real_args real_kwargs;
          res ← cb raw;
          py_assert (Shape_eq (shape e) (Tensor_shape res));; Ok res)).
Proof.
  split.
  - intros Hcb. split.
    + rewrite Evaluation_run_unfold.
      destruct (run_args _ _) as [ra|]; [|done]. cbn [mbind result_bind].
      destruct (run_kwargs _ _) as [rk|]; [|done]. cbn [mbind result_bind].
      destruct (call _ _ _) as [raw|]; [|done]. cbn [mbind result_bind].
      by apply finish_run_no_callback.
    + intros t Hrun.
      destruct (Evaluation_run_Ok_inv _ _ _ Hrun) as (ra & rk & raw & _ & _ & _ & Hfin).
      by rewrite finish_run_no_callback in Hfin.
  - intros cb Hcb. rewrite Evaluation_run_unfold.
    destruct (run_args _ _) as [ra|]; [|done]. cbn [mbind result_bind].
    destruct (run_kwargs _ _) as [rk|]; [|done]. cbn [mbind result_bind].
    destruct (call _ _ _) as [raw|]; [|done]. cbn [mbind result_bind].
    unfold finish_run. by rewrite Hcb.
Qed.

(** C6.  With gradient tracking disabled [lazy_forward] is the eager call
    on the arguments, so whatever it returns is a host tensor; a lazy
    tensor is returned only with gradient tracking enabled, and then it
    wraps a freshly built node recording the callable, no callback and
    the operands passed through [lazy]. *)
Theorem C6_lazy_forward_eager_without_grad (f : Callable)
    (shape_func : ShapeFunction) (a : list Value) (k : list (string * Value)) :
  lazy_forward false f shape_func a k = VTensor <$> call f a k ∧
  (∀ v, lazy_forward false f shape_func a k = Ok v → ∃ t, v = VTensor t) ∧
  (∀ g l, lazy_forward g f shape_func a k = Ok (VLazy l) → g = true) ∧
  (∀ v, lazy_forward true f shape_func a k = Ok v →
        ∃ s, shape_func a k = Ok s ∧
             v = VLazy (MkLazyTensor
                          (VEval (MkEvaluation f s None
                                    ((λ arg, lazy arg None) <$> a)
                                    ((λ kv, (kv.1, lazy kv.2 None)) <$> k)))
                          None)).
Proof.
  split; [done|]. split; [|split].
  - unfold lazy_forward. intros v Hv.
    destruct (call f a k) as [t|]; simpl in Hv; [|done].
    exists t. by injection Hv as <-.
  - intros [] l Hl; [done|]. unfold lazy_forward in Hl.
    destruct (call f a k); simpl in Hl; done.
  - unfold lazy_forward, LazyFunction_call. intros v Hv.
    destruct (shape_func a k) as [s|]; simpl in Hv; [|done].
    exists s. split; [done|]. by injection Hv as <-.
Qed.

(** C9.  Whatever the partial descriptor, a tensor returned by
    [Evaluation.run] has passed the comparison with the node's predicted
    shape; and when the result after the callback (the raw result itself
    in a full run) does not compare equal to the predicted shape, the run
    ends in [AssertionError]. *)
Theorem C9_run_asserts_predicted_shape (e : Evaluation)
    (partial : option PartialInfo) :
  (∀ t, Evaluation_run e partial = Ok t →
        Shape_eq (shape e) (Tensor_shape t) = true) ∧
  (∀ real_args real_kwargs raw res,
     run_args (args e) partial = Ok real_args →
     run_kwargs (kwargs e) partial = Ok real_kwargs →
     call (func e) real_args real_kwargs = Ok raw →
     match partial with
     | None => res = raw
     | Some _ => ∃ cb, callback e = Some cb ∧ cb raw = Ok res
     end →
     Shape_eq (shape e) (Tensor_shape res) = false →
     Evaluation_run e partial = Err AssertionError).
Proof.
  split.
  - intros t Hrun.
    destruct (Evaluation_run_Ok_inv _ _ _ Hrun) as (ra & rk & raw & _ & _ & _ & Hfin).
    by eapply finish_run_Ok.
  - intros ra rk raw res Ha Hk Hcall Hres Hne.
    rewrite Evaluation_run_unfold, Ha, Hk. simpl. rewrite Hcall. simpl.
    unfold finish_run. destruct partial as [p|].
    + destruct Hres as (cb & -> & ->). simpl. by rewrite Hne.
    + subst res. simpl. by rewrite Hne.
Qed.

(** C10.  In [_min] and [_max], a second operand given by keyword is
    replaced by the boolean [True] (the value of the presence test) before
    it is forwarded to the elementwise minimum or maximum; a second
    operand given positionally is forwarded as it is. *)
Theorem C10_keyword_other_becomes_True (g : bool) (input t : Value) :
  (is_not_None t = true →
     _min g input [] [("other", t)]
       = Single <$> lazy_forward g (torch_function "minimum")
                      (shape_function shapes_symmetric) [input; VBool true] [] ∧
     _max g input [] [("other", t)]
       = Single <$> lazy_forward g (torch_function "maximum")
                      (shape_function shapes_symmetric) [input; VBool true] []) ∧
  (is_tensor_or_lazy t = true →
     _min g input [t] []
       = Single <$> lazy_forward g (torch_function "minimum")
                      (shape_function shapes_symmetric) [input; t] [] ∧
     _max g input [t] []
       = Single <$> lazy_forward g (torch_function "maximum")
                      (shape_function shapes_symmetric) [input; t] []).
Proof.
  split.
  - intros Ht. unfold _min, _max, binary_operand. simpl.
    by rewrite Ht.
  - intros Ht. unfold _min, _max, binary_operand. simpl.
    by rewrite Ht.
Qed.

End graph_facts.

(* ===================================================================== *)
(** * The graph on the concrete host *)
(* ===================================================================== *)

Section on_lists.
#[local] Existing Instance ListHost.torch.
#[local] Existing Instance ListHost.ops.
Import tensors ListHost.

Example run_add_node :
  Evaluation_run (add_node [3] None) None = Ok (tensor [11; 22; 33]).
Proof. vm_compute. reflexivity. Qed.

Example lazy_add_then_run :
  (v ← LazyTensor___add__ true (MkLazyTensor (VTensor (tensor [1; 2; 3])) None)
         (leaf [10; 20; 30]);
   run v None) = Ok (VTensor (tensor [11; 22; 33])).
Proof. vm_compute. reflexivity. Qed.

(** C3 (the claim as stated fails).  A lazy tensor storing [[1; 2; 3]],
    run under the partial descriptor of the slice [0:1], returns [[1]] and
    not the stored tensor. *)
Lemma C3_run_materialized_counterexample :
  LazyTensor_run (MkLazyTensor (VTensor stored) None) (Some first_row)
    = Ok (tensor [1]) ∧
  run (VLazy (MkLazyTensor (VTensor stored) None)) (Some first_row)
    = Ok (VTensor (tensor [1])) ∧
  tensor [1] ≠ stored.
Proof. repeat split. vm_compute. discriminate. Qed.

Example C4_batch_failing_input :
  LazyTensor_batch (LazyTensor_init (VTensor stored) (Some 0)) = None ∧
  _batch (LazyTensor_init (VTensor stored) (Some 0)) = Some 0.
Proof. split; reflexivity. Qed.

(** C5 (the claim as stated fails).  A node without a callback that adds
    a tensor of three entries to one of two, run under the partial
    descriptor of the slice [0:3]: the recorded addition is called first
    and fails on the sizes, so the run ends in that error and not in
    [UnsupportedError]. *)
Lemma C5_partial_run_counterexample :
  callback mismatched_add_node = None ∧
  Evaluation_run mismatched_add_node (Some whole_slice)
    = Err (RuntimeError "size mismatch") ∧
  Err (RuntimeError "size mismatch")
    ≠ (Err (UnsupportedError "Cannot safely parallelize.") : result Tensor).
Proof.
  split; [reflexivity|]. split; [vm_compute; reflexivity|]. discriminate.
Qed.

Lemma C5_partial_run_witness :
  callback (add_node [3] None) = None ∧
  Evaluation_run (add_node [3] None) (Some first_row)
    = Err (UnsupportedError "Cannot safely parallelize.") ∧
  Evaluation_run mismatched_add_node (Some whole_slice)
    = Err (RuntimeError "size mismatch") ∧
  Evaluation_run (add_node [1] (Some Ok)) (Some first_row)
    = Ok (tensor [11]).
Proof.
  split; [reflexivity|]. split; [|split].
  - rewrite (proj1 (proj1 (C5_partial_run_requires_callback
                             (add_node [3] None) first_row) eq_refl)).
    vm_compute. reflexivity.
  - rewrite (proj1 (proj1 (C5_partial_run_requires_callback
                             mismatched_add_node whole_slice) eq_refl)).
    vm_compute. reflexivity.
  - rewrite (proj2 (C5_partial_run_requires_callback
                      (add_node [1] (Some Ok)) first_row) Ok eq_refl).
    vm_compute. reflexivity.
Defined.

Lemma C6_lazy_forward_witness :
  lazy_forward false (Tensor_method "__add__")
    (shape_function shapes_symmetric)
    [VTensor (tensor [1; 2; 3]); VTensor (tensor [10; 20; 30])] [] = Ok (VTensor (tensor [11; 22; 33])) ∧
  (∃ t, VTensor (tensor [11; 22; 33]) = VTensor t) ∧
  ∃ s, shape_function shapes_symmetric [leaf [1; 2; 3]; leaf [10; 20; 30]] []
         = Ok s ∧
       VLazy (MkLazyTensor (VEval (add_node [3] None)) None)
         = VLazy (MkLazyTensor
                    (VEval (MkEvaluation (Tensor_method "__add__") s None
                              ((λ arg, lazy arg None)
                                 <$> [leaf [1; 2; 3]; leaf [10; 20; 30]])
                              ((λ kv, (kv.1, lazy kv.2 None)) <$> [])))
                    None).
Proof.
  split; [vm_compute; reflexivity|]. split.
  - apply (proj1 (proj2 (C6_lazy_forward_eager_without_grad
                           (Tensor_method "__add__")
                           (shape_function shapes_symmetric)
                           [VTensor (tensor [1; 2; 3]); VTensor (tensor [10; 20; 30])] []))).
    vm_compute. reflexivity.
  - apply (proj2 (proj2 (proj2 (C6_lazy_forward_eager_without_grad
                                  (Tensor_method "__add__")
                                  (shape_function shapes_symmetric)
                                  [leaf [1; 2; 3]; leaf [10; 20; 30]] [])))).
    vm_compute. reflexivity.
Defined.

Lemma C9_run_asserts_witness :
  Evaluation_run (add_node [3] None) None = Ok (tensor [11; 22; 33]) ∧
  Shape_eq (shape (add_node [3] None)) (Tensor_shape (tensor [11; 22; 33])) = true ∧
  Evaluation_run (add_node [3] (Some Ok)) (Some first_row)
    = Err AssertionError.
Proof.
  split; [vm_compute; reflexivity|]. split.
  - apply (proj1 (C9_run_asserts_predicted_shape (add_node [3] None) None)).
    vm_compute. reflexivity.
  - apply (proj2 (C9_run_asserts_predicted_shape
                    (add_node [3] (Some Ok)) (Some first_row))
             [VTensor (tensor [1]); VTensor (tensor [10])] [] (tensor [11]) (tensor [11]));
      try (vm_compute; reflexivity).
    exists Ok. split; reflexivity.
Defined.

Lemma C10_keyword_other_witness :
  is_not_None (leaf [3; 2; 1]) = true ∧
  _min true (leaf [1; 2; 3]) [] [("other", leaf [3; 2; 1])]
    = Single <$> lazy_forward true (torch_function "minimum")
                   (shape_function shapes_symmetric)
                   [leaf [1; 2; 3]; VBool true] [] ∧
  _min true (leaf [1; 2; 3]) [leaf [3; 2; 1]] []
    = Single <$> lazy_forward true (torch_function "minimum")
                   (shape_function shapes_symmetric)
                   [leaf [1; 2; 3]; leaf [3; 2; 1]] [].
Proof.
  split; [reflexivity|]. split.
  - apply (proj1 (C10_keyword_other_becomes_True true (leaf [1; 2; 3])
                    (leaf [3; 2; 1])) eq_refl).
  - apply (proj2 (C10_keyword_other_becomes_True true (leaf [1; 2; 3])
                    (leaf [3; 2; 1])) eq_refl).
Defined.

(** The node that [min(input, other=t)] builds holds [True] where the
    tensor was expected. *)
Example min_keyword_node :
  _min true (leaf [1; 2; 3]) [] [("other", leaf [3; 2; 1])]
    = Ok (Single (VLazy (MkLazyTensor
            (VEval (MkEvaluation (torch_function "minimum") (shape_of [1; 2; 3])
                      None [leaf [1; 2; 3]; VBool true] []))
            None))).
Proof. vm_compute. reflexivity. Qed.

End on_lists.

(* ===================================================================== *)
(** * Broadcasting: [prepends], [coerce] and [symmetric] *)
(* ===================================================================== *)

Section broadcasting_facts.
Import shapes.

Lemma prepends_eq (input other : list Z) :
  prepends input other
  = Ok (replicate (length other - length input) 1 ++ input,
        replicate (length input - length other) 1 ++ other).
Proof.
  unfold prepends, Py.repeat_tuple, Py.len.
  destruct (Z.leb_spec (Z.of_nat (length other)) (Z.of_nat (length input))).
  - replace (length other - length input)%nat with 0%nat by lia.
    replace (Z.to_nat (Z.abs (Z.of_nat (length input) - Z.of_nat (length other))))
      with (length input - length other)%nat by lia.
    rewrite length_app, length_replicate.
    replace (Z.of_nat (length input)
             =? Z.of_nat (length input - length other + length other))
      with true by (symmetry; apply Z.eqb_eq; lia).
    done.
  - replace (length input - length other)%nat with 0%nat by lia.
    replace (Z.to_nat (Z.abs (Z.of_nat (length input) - Z.of_nat (length other))))
      with (length other - length input)%nat by lia.
    rewrite length_app, length_replicate.
    replace (Z.of_nat (length other - length input + length input)
             =? Z.of_nat (length other))
      with true by (symmetry; apply Z.eqb_eq; lia).
    done.
Qed.

Lemma prepends_same_length (input other : list Z) :
  length input = length other → prepends input other = Ok (input, other).
Proof. intros Hlen. rewrite prepends_eq. by rewrite Hlen, Nat.sub_diag. Qed.

(** X1.  [prepends] never fails: it pads the shorter tuple on the left
    with ones up to the length of the longer one and leaves the longer one
    untouched, so the two results have the same length. *)
Theorem X1_prepends_pads_left (input other : list Z) :
  ∃ input' other',
    prepends input other = Ok (input', other') ∧
    input' = replicate (length other - length input) 1 ++ input ∧
    other' = replicate (length input - length other) 1 ++ other ∧
    length input' = length other' ∧
    length input' = Nat.max (length input) (length other).
Proof.
  eexists _, _. split; [apply prepends_eq|]. split; [done|]. split; [done|].
  rewrite !length_app, !length_replicate. lia.
Qed.

Lemma coerce_loop_eq (pairs : list (Z * Z)) (shape : list Z) :
  coerce_loop pairs shape ≫= or_ValueError
  = if forallb broadcastable pairs
    then Ok (shape ++ ((λ p, Z.max p.1 p.2) <$> pairs))
    else Err (ValueError None).
Proof.
  revert shape. induction pairs as [|[a b] pairs IH]; intros shape; simpl.
  { by rewrite app_nil_r. }
  unfold broadcastable at 1. cbn [fst snd].
  rewrite !(Z.ltb_antisym _ 0).
  destruct (a <=? 0), (b <=? 0); simpl; try done.
  destruct ((a =? 1) || (b =? 1) || (a =? b)); simpl; [|done].
  rewrite IH. by rewrite <-app_assoc.
Qed.

Lemma fmap_max_zip (l k : list Z) :
  (λ p : Z * Z, Z.max p.1 p.2) <$> zip l k = zip_with Z.max l k.
Proof.
  revert k. induction l as [|x l IH]; intros [|y k]; simpl; [done..|].
  by rewrite IH.
Qed.

Lemma symmetric_eq (input other : list Z) :
  symmetric input other =
    if decide (input = []) then Ok other
    else if decide (other = []) then Ok input
    else if decide (length input = length other)
    then (if forallb broadcastable (zip input other)
          then Ok (zip_with Z.max input other)
          else Err (ValueError None))
    else Err (ValueError None).
Proof.
  unfold symmetric, coerce, Py.len.
  destruct input as [|a input]; [done|].
  destruct other as [|b other]; [done|].
  rewrite !decide_False by done.
  change (Z.of_nat (length (a :: input)) =? 0) with false.
  change (Z.of_nat (length (b :: other)) =? 0) with false.
  cbn [andb negb].
  destruct (decide (length (a :: input) = length (b :: other))) as [Hlen|Hlen].
  - rewrite Hlen, Z.eqb_refl. cbn [negb].
    rewrite prepends_same_length by done. cbn [mbind result_bind].
    change (match ?x with Ok a => ?f a | Err e => Err e end)
      with (x ≫= f).
    fold or_ValueError. rewrite coerce_loop_eq, fmap_max_zip. done.
  - destruct (Z.eqb_spec (Z.of_nat (length (a :: input)))
                (Z.of_nat (length (b :: other)))); [lia|done].
Qed.

Lemma broadcastable_swap (x y : Z) : broadcastable (x, y) = broadcastable (y, x).
Proof.
  unfold broadcastable, compatible. simpl.
  rewrite (Z.eqb_sym x y).
  destruct (0 <? x), (0 <? y), (x =? 1), (y =? 1), (y =? x); done.
Qed.

Lemma forallb_broadcastable_swap (l k : list Z) :
  forallb broadcastable (zip l k) = forallb broadcastable (zip k l).
Proof.
  revert k. induction l as [|x l IH]; intros [|y k]; simpl; [done..|].
  by rewrite IH, broadcastable_swap.
Qed.

Lemma zip_with_max_swap (l k : list Z) :
  zip_with Z.max l k = zip_with Z.max k l.
Proof.
  revert k. induction l as [|x l IH]; intros [|y k]; simpl; [done..|].
  by rewrite IH, Z.max_comm.
Qed.

(** X2.  Scalar absorption: with [scalars] enabled, [coerce] of any shape
    with the rank-0 shape returns that shape unchanged, on either side and
    whatever [broadcast] is (no positivity check is made on this path);
    with [scalars] disabled a rank-0 shape against a shape of positive
    rank is reported as incompatible. *)
Theorem X2_coerce_scalar_absorption (s : list Z) (broadcast : bool) :
  coerce s [] broadcast true = Ok (Some s) ∧
  coerce [] s broadcast true = Ok (Some s) ∧
  (s ≠ [] → coerce [] s broadcast false = Ok None ∧
            coerce s [] broadcast false = Ok None).
Proof.
  split; [by destruct s|]. split; [by destruct s|].
  intros Hs. by destruct s.
Qed.

Lemma X2_coerce_scalar_witness :
  coerce [2; 3] [] true true = Ok (Some [2; 3]) ∧
  coerce [] [2; 3] true true = Ok (Some [2; 3]) ∧
  coerce [] [2; 3] true false = Ok None ∧
  coerce [2; 3] [] true false = Ok None.
Proof.
  pose proof (X2_coerce_scalar_absorption [2; 3] true) as (H1 & H2 & H3).
  split; [exact H1|]. split; [exact H2|]. exact (H3 ltac:(discriminate)).
Defined.

(** X3.  [symmetric] does not broadcast across ranks: two shapes of
    different positive rank are rejected with [ValueError], because
    [coerce] gives up on a length mismatch before it aligns them. *)
Theorem X3_symmetric_rejects_rank_mismatch (input other : list Z) :
  input ≠ [] → other ≠ [] → length input ≠ length other →
  symmetric input other = Err (ValueError None).
Proof.
  intros Hi Ho Hlen. rewrite symmetric_eq.
  by rewrite !decide_False by done.
Qed.

Lemma X3_symmetric_rank_witness :
  symmetric [2; 3] [3] = Err (ValueError None).
Proof.
  apply (X3_symmetric_rejects_rank_mismatch [2; 3] [3]);
    [discriminate | discriminate | simpl; lia].
Defined.

(** X4.  [symmetric] is commutative, errors included. *)
Theorem X4_symmetric_comm (input other : list Z) :
  symmetric input other = symmetric other input.
Proof.
  rewrite !symmetric_eq.
  destruct (decide (input = [])) as [->|Hi];
    destruct (decide (other = [])) as [->|Ho]; try done.
  destruct (decide (length input = length other)) as [Hlen|Hlen].
  - rewrite decide_True by done.
    by rewrite forallb_broadcastable_swap, zip_with_max_swap.
  - by rewrite decide_False by done.
Qed.

(** X5.  On two shapes of the same rank [symmetric] succeeds exactly when
    every aligned pair of sizes is positive and compatible (equal, or one
    of them 1), and the result is then the entrywise maximum; otherwise it
    raises [ValueError]. *)
Theorem X5_symmetric_same_rank (input other : list Z) :
  length input = length other →
  symmetric input other =
    if forallb broadcastable (zip input other)
    then Ok (zip_with Z.max input other)
    else Err (ValueError None).
Proof.
  intros Hlen. rewrite symmetric_eq.
  destruct (decide (input = [])) as [->|Hi].
  { by destruct other. }
  destruct (decide (other = [])) as [->|Ho].
  { by destruct input. }
  by rewrite decide_True by done.
Qed.

Lemma X5_symmetric_same_rank_witness :
  symmetric [2; 1; 3] [1; 4; 3] = Ok [2; 4; 3] ∧
  symmetric [2; 3] [3; 3] = Err (ValueError None) ∧
  symmetric [0; 3] [0; 3] = Err (ValueError None).
Proof.
  split; [|split].
  - rewrite (X5_symmetric_same_rank [2; 1; 3] [1; 4; 3]); reflexivity.
  - rewrite (X5_symmetric_same_rank [2; 3] [3; 3]); reflexivity.
  - rewrite (X5_symmetric_same_rank [0; 3] [0; 3]); reflexivity.
Defined.

End broadcasting_facts.

(* ===================================================================== *)
(** * [tranpose], [matmul] and [linear] *)
(* ===================================================================== *)

Section transpose_facts.
Import shapes.

Lemma getitem_position {A} (t : list A) (i : Z) :
  Py.getitem t i =
    match position (length t) i with
    | Some k => match t !! k with Some x => Ok x | None => Err IndexError end
    | None => Err IndexError
    end.
Proof.
  unfold Py.getitem, position, Py.len.
  by destruct ((_ <? 0) || (_ <=? _)).
Qed.

Lemma setitem_position {A} (t : list A) (i : Z) (x : A) :
  Py.setitem t i x =
    match position (length t) i with
    | Some k => Ok (<[k:=x]> t)
    | None => Err IndexError
    end.
Proof.
  unfold Py.setitem, position, Py.len.
  by destruct ((_ <? 0) || (_ <=? _)).
Qed.

Lemma position_lt (n : nat) (i : Z) (k : nat) :
  position n i = Some k → (k < n)%nat.
Proof.
  unfold position. intros Hk.
  destruct ((_ <? 0) || (_ <=? _)) eqn:Hc; [done|].
  injection Hk as <-.
  apply orb_false_iff in Hc as [H0 Hn].
  apply Z.ltb_ge in H0. apply Z.leb_gt in Hn. lia.
Qed.

Lemma getitem_Ok_inv {A} (t : list A) (i : Z) (x : A) :
  Py.getitem t i = Ok x →
  ∃ k, position (length t) i = Some k ∧ t !! k = Some x.
Proof.
  rewrite getitem_position. intros Hx.
  destruct (position (length t) i) as [k|]; [|done].
  destruct (t !! k) as [y|] eqn:Hy; [|done].
  exists k. split; [done|]. by injection Hx as <-.
Qed.

Lemma tranpose_Ok_inv (s t : list Z) (i j : Z) :
  tranpose s i j = Ok t →
  ∃ p q sp sq,
    (2 ≤ length s)%nat ∧
    position (length s) i = Some p ∧ position (length s) j = Some q ∧
    s !! p = Some sp ∧ s !! q = Some sq ∧
    t = <[q:=sp]> (<[p:=sq]> s).
Proof.
  unfold tranpose, Py.len. intros Ht.
  destruct (Z.ltb_spec (Z.of_nat (length s)) 2) as [|Hlen]; [done|].
  destruct (Py.getitem s j) as [sq|] eqn:Hj; simpl in Ht; [|done].
  destruct (Py.getitem s i) as [sp|] eqn:Hi; simpl in Ht; [|done].
  apply getitem_Ok_inv in Hj as (q & Hq & Hsq).
  apply getitem_Ok_inv in Hi as (p & Hp & Hsp).
  rewrite !setitem_position, Hp in Ht. simpl in Ht.
  rewrite setitem_position, length_insert, Hq in Ht. simpl in Ht.
  exists p, q, sp, sq. repeat split; try done; [lia|].
  by injection Ht as <-.
Qed.

Lemma tranpose_Ok_intro (s : list Z) (i j : Z) (p q : nat) (sp sq : Z) :
  (2 ≤ length s)%nat →
  position (length s) i = Some p → position (length s) j = Some q →
  s !! p = Some sp → s !! q = Some sq →
  tranpose s i j = Ok (<[q:=sp]> (<[p:=sq]> s)).
Proof.
  intros Hlen Hp Hq Hsp Hsq. unfold tranpose, Py.len.
  destruct (Z.ltb_spec (Z.of_nat (length s)) 2) as [|_]; [lia|].
  rewrite !getitem_position, Hq, Hsq. simpl.
  rewrite Hp, Hsp. simpl.
  rewrite setitem_position, Hp. simpl.
  by rewrite setitem_position, length_insert, Hq.
Qed.

Lemma swap_back (s : list Z) (p q : nat) (sp sq : Z) :
  s !! p = Some sp → s !! q = Some sq →
  <[q:=sq]> (<[p:=sp]> (<[q:=sp]> (<[p:=sq]> s))) = s.
Proof.
  intros Hsp Hsq. apply list_eq. intros k.
  pose proof (lookup_lt_Some _ _ _ Hsp). pose proof (lookup_lt_Some _ _ _ Hsq).
  rewrite !list_lookup_insert, !length_insert.
  repeat case_decide; destruct_and?; subst; try done; try lia.
Qed.

(** X6.  A successful [tranpose] keeps the rank, exchanges the two named
    entries and leaves every other entry alone; it is its own inverse, and
    the order of the two axes does not matter. *)
Theorem X6_tranpose_swaps (s t : list Z) (dim0 dim1 : Z) :
  tranpose s dim0 dim1 = Ok t →
  length t = length s ∧
  tranpose t dim0 dim1 = Ok s ∧
  tranpose s dim1 dim0 = Ok t ∧
  ∃ p q, position (length s) dim0 = Some p ∧
         position (length s) dim1 = Some q ∧
         t !! p = s !! q ∧ t !! q = s !! p ∧
         ∀ k, k ≠ p → k ≠ q → t !! k = s !! k.
Proof.
  intros Ht.
  destruct (tranpose_Ok_inv _ _ _ _ Ht) as (p & q & sp & sq & Hlen & Hp & Hq & Hsp & Hsq & ->).
  pose proof (position_lt _ _ _ Hp) as Hpn.
  pose proof (position_lt _ _ _ Hq) as Hqn.
  split; [by rewrite !length_insert|]. split; [|split].
  - assert (Hp' : <[q:=sp]> (<[p:=sq]> s) !! p = Some sq).
    { rewrite list_lookup_insert, length_insert.
      case_decide as Hd; [destruct Hd as [-> _]; congruence|].
      by apply list_lookup_insert_eq. }
    assert (Hq' : <[q:=sp]> (<[p:=sq]> s) !! q = Some sp).
    { apply list_lookup_insert_eq. by rewrite length_insert. }
    rewrite (tranpose_Ok_intro _ dim0 dim1 p q sq sp);
      rewrite ?length_insert; try done.
    f_equal. by apply swap_back.
  - rewrite (tranpose_Ok_intro _ dim1 dim0 q p sq sp) by done.
    f_equal. destruct (decide (p = q)) as [->|Hne].
    + rewrite !list_insert_insert_eq. congruence.
    + by rewrite list_insert_insert_ne.
  - exists p, q. split; [done|]. split; [done|]. split; [|split].
    + rewrite list_lookup_insert, length_insert.
      case_decide as Hd; [destruct Hd as [-> _]; congruence|].
      rewrite list_lookup_insert_eq by done. done.
    + rewrite list_lookup_insert_eq by (by rewrite length_insert). done.
    + intros k Hkp Hkq. by rewrite !list_lookup_insert_ne.
Qed.

Lemma X6_tranpose_witness :
  tranpose [2; 3; 5] 0 (-1) = Ok [5; 3; 2] ∧
  length [5; 3; 2] = length [2; 3; 5] ∧
  tranpose [5; 3; 2] 0 (-1) = Ok [2; 3; 5] ∧
  tranpose [2; 3; 5] (-1) 0 = Ok [5; 3; 2] ∧
  ∃ p q, position (length [2; 3; 5]) 0 = Some p ∧
         position (length [2; 3; 5]) (-1) = Some q ∧
         [5; 3; 2] !! p = [2; 3; 5] !! q ∧ [5; 3; 2] !! q = [2; 3; 5] !! p ∧
         ∀ k, k ≠ p → k ≠ q → [5; 3; 2] !! k = [2; 3; 5] !! k.
Proof.
  split; [reflexivity|].
  apply (X6_tranpose_swaps [2; 3; 5] [5; 3; 2] 0 (-1)). reflexivity.
Defined.

(** X7.  [tranpose] rejects a shape of rank below two with [ValueError]
    before it looks at the axes, and an axis outside [-rank, rank) with
    [IndexError]. *)
Theorem X7_tranpose_errors (s : list Z) (dim0 dim1 : Z) :
  ((length s < 2)%nat → tranpose s dim0 dim1 = Err (ValueError None)) ∧
  ((2 ≤ length s)%nat →
   (position (length s) dim0 = None ∨ position (length s) dim1 = None) →
   tranpose s dim0 dim1 = Err IndexError).
Proof.
  split.
  - intros Hlen. unfold tranpose, Py.len.
    by destruct (Z.ltb_spec (Z.of_nat (length s)) 2) as [_|]; [|lia].
  - intros Hlen Hpos. unfold tranpose, Py.len.
    destruct (Z.ltb_spec (Z.of_nat (length s)) 2) as [|_]; [lia|].
    rewrite !getitem_position.
    destruct (position (length s) dim1) as [q|] eqn:Hq; [|done].
    pose proof (position_lt _ _ _ Hq) as Hqn.
    destruct (lookup_lt_is_Some_2 s q Hqn) as [sq ->]. simpl.
    destruct Hpos as [Hp|Hp]; [|done]. by rewrite Hp.
Qed.

Lemma X7_tranpose_errors_witness :
  tranpose [7] 0 0 = Err (ValueError None) ∧
  tranpose [2; 3] 0 2 = Err IndexError ∧
  tranpose [2; 3] (-3) 0 = Err IndexError.
Proof.
  split; [|split].
  - apply (proj1 (X7_tranpose_errors [7] 0 0)). simpl. lia.
  - apply (proj2 (X7_tranpose_errors [2; 3] 0 2)); [simpl; lia|].
    right. reflexivity.
  - apply (proj2 (X7_tranpose_errors [2; 3] (-3) 0)); [simpl; lia|].
    left. reflexivity.
Defined.

End transpose_facts.

Section batched_matmul_facts.
Import shapes.

Lemma matmul_batch_eq (pairs : list (Z * Z)) (acc : list Z) :
  matmul_batch pairs acc =
    if forallb (λ p, compatible p.1 p.2 true) pairs
    then Ok (acc ++ ((λ p : Z * Z, Z.max p.1 p.2) <$> pairs))
    else Err (ValueError None).
Proof.
  revert acc. induction pairs as [|[a b] pairs IH]; intros acc; simpl.
  { by rewrite app_nil_r. }
  destruct ((a =? 1) || (b =? 1) || (a =? b)); simpl; [|done].
  rewrite IH. by rewrite <-app_assoc.
Qed.

Lemma drop_last2_app {A} (b : list A) (x y : A) :
  Py.drop_last2 (b ++ [x; y]) = b.
Proof.
  unfold Py.drop_last2. rewrite length_app. simpl.
  replace (length b + 2 - 2)%nat with (length b) by lia.
  by rewrite take_app_length.
Qed.

Lemma getitem_last {A} (b : list A) (x y : A) :
  Py.getitem (b ++ [x; y]) (-1) = Ok y.
Proof.
  rewrite getitem_position.
  assert (position (length (b ++ [x; y])) (-1) = Some (S (length b))) as ->.
  { unfold position. rewrite length_app. simpl.
    destruct (Z.ltb_spec (Z.of_nat (length b + 2) + -1) 0); [lia|].
    destruct (Z.leb_spec (Z.of_nat (length b + 2))
                (Z.of_nat (length b + 2) + -1)); [lia|].
    simpl. f_equal. lia. }
  rewrite lookup_app_r by lia.
  by replace (S (length b) - length b)%nat with 1%nat by lia.
Qed.

Lemma getitem_last_but_one {A} (b : list A) (x y : A) :
  Py.getitem (b ++ [x; y]) (-2) = Ok x.
Proof.
  rewrite getitem_position.
  assert (position (length (b ++ [x; y])) (-2) = Some (length b)) as ->.
  { unfold position. rewrite length_app. simpl.
    destruct (Z.ltb_spec (Z.of_nat (length b + 2) + -2) 0); [lia|].
    destruct (Z.leb_spec (Z.of_nat (length b + 2))
                (Z.of_nat (length b + 2) + -2)); [lia|].
    simpl. f_equal. lia. }
  rewrite lookup_app_r by lia.
  by rewrite Nat.sub_diag.
Qed.

Lemma matmul_batched_eq (batch1 batch2 : list Z) (m k k' n : Z) :
  let aligned1 := replicate (length batch2 - length batch1) 1 ++ batch1 in
  let aligned2 := replicate (length batch1 - length batch2) 1 ++ batch2 in
  matmul (batch1 ++ [m; k]) (batch2 ++ [k'; n]) =
    if forallb (λ p, compatible p.1 p.2 true) (zip aligned1 aligned2)
       && (k =? k')
    then Ok (zip_with Z.max aligned1 aligned2 ++ [m; n])
    else Err (ValueError None).
Proof.
  intros aligned1 aligned2.
  destruct (decide (batch1 = [] ∧ batch2 = [])) as [[-> ->]|Hne].
  { unfold matmul. simpl. by destruct (k =? k'). }
  unfold matmul.
  assert (Hli : Py.len (batch1 ++ [m; k]) = Z.of_nat (length batch1) + 2).
  { unfold Py.len. rewrite length_app. simpl. lia. }
  assert (Hlo : Py.len (batch2 ++ [k'; n]) = Z.of_nat (length batch2) + 2).
  { unfold Py.len. rewrite length_app. simpl. lia. }
  rewrite Hli, Hlo.
  destruct (Z.eqb_spec (Z.of_nat (length batch1) + 2) 0); [lia|].
  destruct (Z.eqb_spec (Z.of_nat (length batch2) + 2) 0); [lia|].
  destruct (Z.eqb_spec (Z.of_nat (length batch2) + 2) 1); [lia|].
  rewrite andb_false_r.
  assert (((Z.of_nat (length batch1) + 2 =? Z.of_nat (length batch2) + 2)
           && (Z.of_nat (length batch2) + 2 =? 2)) = false) as ->.
  { apply andb_false_iff.
    destruct (Z.eqb_spec (Z.of_nat (length batch1) + 2)
                (Z.of_nat (length batch2) + 2)) as [He|]; [|by left].
    right. apply Z.eqb_neq. intros H2. apply Hne.
    split; apply length_zero_iff_nil; lia. }
  cbn [orb andb Py.tuple_eq_int].
  rewrite !andb_false_r.
  rewrite prepends_eq. cbn [mbind result_bind].
  rewrite !length_app. simpl length.
  replace (length batch2 + 2 - (length batch1 + 2))%nat
    with (length batch2 - length batch1)%nat by lia.
  replace (length batch1 + 2 - (length batch2 + 2))%nat
    with (length batch1 - length batch2)%nat by lia.
  rewrite !(assoc_L (++)). fold aligned1 aligned2.
  rewrite !drop_last2_app, matmul_batch_eq, fmap_max_zip.
  destruct (forallb _ _); simpl; [|done].
  rewrite !getitem_last, !getitem_last_but_one. simpl.
  by destruct (k =? k').
Qed.

(** X8.  The batched rule of [matmul].  For operands of rank at least two,
    [batch1 + (m, k)] and [batch2 + (k', n)], the batch parts are aligned
    by left-padding the shorter with ones; the call succeeds exactly when
    every aligned pair of batch sizes is compatible and [k = k'], and then
    returns the entrywise maximum of the aligned batch parts followed by
    [(m, n)]; every failure is a [ValueError]. *)
Theorem X8_matmul_batched (batch1 batch2 : list Z) (m k k' n : Z) :
  let aligned1 := replicate (length batch2 - length batch1) 1 ++ batch1 in
  let aligned2 := replicate (length batch1 - length batch2) 1 ++ batch2 in
  matmul (batch1 ++ [m; k]) (batch2 ++ [k'; n]) =
    if forallb (λ p, compatible p.1 p.2 true) (zip aligned1 aligned2)
       && (k =? k')
    then Ok (zip_with Z.max aligned1 aligned2 ++ [m; n])
    else Err (ValueError None).
Proof. apply matmul_batched_eq. Qed.

Example matmul_batched_example :
  matmul [7; 1; 4; 3] [5; 3; 2] = Ok [7; 5; 4; 2].
Proof. vm_compute. reflexivity. Qed.

(** X9.  Low ranks: [matmul] rejects a rank-0 operand with a [ValueError]
    that carries a message, and on two vectors it returns the rank-0 shape
    when the lengths agree and raises [ValueError] when they do not. *)
Theorem X9_matmul_low_rank (input other : list Z) (a b : Z) :
  matmul [] other = Err (ValueError (Some (matmul_message 0 (Py.len other)))) ∧
  matmul input [] = Err (ValueError (Some (matmul_message (Py.len input) 0))) ∧
  matmul [a] [b] = if a =? b then Ok [] else Err (ValueError None).
Proof.
  split; [done|]. split.
  - unfold matmul. by rewrite orb_true_r.
  - unfold matmul. simpl. by destruct (a =? b).
Qed.

Lemma compatible_with_ones (batch : list Z) :
  forallb (λ p, compatible p.1 p.2 true) (zip batch (replicate (length batch) 1))
  = true.
Proof.
  induction batch as [|d batch IH]; [done|].
  cbn [length replicate].
  change (zip (d :: batch) (1 :: replicate (length batch) 1))
    with ((d, 1) :: zip batch (replicate (length batch) 1)).
  cbn [forallb]. rewrite IH. unfold compatible. simpl.
  by rewrite orb_true_r.
Qed.

Lemma max_with_ones (batch : list Z) :
  zip_with Z.max batch (replicate (length batch) 1)
  = (λ d, Z.max d 1) <$> batch.
Proof. induction batch as [|d batch IH]; simpl; [done|]. by rewrite IH. Qed.

Lemma linear_eq (batch : list Z) (n i o i' : Z) (bias : option (list Z)) :
  linear (batch ++ [n; i]) [o; i'] bias =
    if i =? i'
    then match bias with
         | Some bias => symmetric (((λ d, Z.max d 1) <$> batch) ++ [n; o]) bias
         | None => Ok (((λ d, Z.max d 1) <$> batch) ++ [n; o])
         end
    else Err (ValueError None).
Proof.
  unfold linear.
  assert (tranpose [o; i'] (-1) (-2) = Ok [i'; o]) as -> by done.
  cbn [mbind result_bind].
  pose proof (matmul_batched_eq batch [] n i i' o) as Hmm.
  cbn zeta in Hmm. rewrite app_nil_l in Hmm. rewrite Hmm. simpl length.
  rewrite Nat.sub_0_l, Nat.sub_0_r, app_nil_r. simpl replicate.
  rewrite app_nil_l, compatible_with_ones, max_with_ones.
  by destruct (i =? i').
Qed.

(** X10.  [linear] without a bias, for an input of rank at least two and a
    weight [(out, in')]: the weight is transposed and multiplied, so the
    call succeeds exactly when the input's last size equals [in'], and the
    last size is then replaced by [out] (a leading size below one comes out
    as one, being broadcast against the padding of the weight). *)
Theorem X10_linear_without_bias (batch : list Z) (n i o i' : Z) :
  linear (batch ++ [n; i]) [o; i'] None =
    if i =? i'
    then Ok (((λ d, Z.max d 1) <$> batch) ++ [n; o])
    else Err (ValueError None).
Proof. apply linear_eq. Qed.

(** X11.  [linear] with a bias of rank one (the usual [(out,)] bias) never
    succeeds on an input of rank at least two: the product has rank at
    least two and [symmetric] rejects operands of different positive rank,
    so the call raises [ValueError] whatever the sizes are.  A rank-0 bias
    is absorbed. *)
Theorem X11_linear_rejects_vector_bias (batch : list Z) (n i o i' c : Z) :
  linear (batch ++ [n; i]) [o; i'] (Some [c]) = Err (ValueError None) ∧
  linear (batch ++ [n; i]) [o; i'] (Some [])
  = linear (batch ++ [n; i]) [o; i'] None.
Proof.
  rewrite !linear_eq. destruct (i =? i'); [|done].
  rewrite !symmetric_eq. split.
  - rewrite decide_False by (by destruct batch).
    rewrite decide_False by done.
    rewrite decide_False; [done|].
    rewrite length_app, length_fmap. simpl. lia.
  - rewrite decide_False by (by destruct batch). done.
Qed.

Example linear_example :
  linear [8; 4] [6; 4] None = Ok [8; 6] ∧
  linear [8; 4] [6; 4] (Some [6]) = Err (ValueError None) ∧
  linear [8; 4] [6; 4] (Some [1; 6]) = Ok [8; 6].
Proof. repeat split. Qed.

End batched_matmul_facts.

(* ===================================================================== *)
(** * More about [permute], [scalar] and [reduce_dims] *)
(* ===================================================================== *)

Section permute_round_trip.
Import shapes.

Lemma enumerate_fst (dims : list Z) :
  (Py.enumerate dims).*1 = Py.range (Py.len dims).
Proof.
  unfold Py.enumerate. apply fst_zip.
  rewrite length_range. unfold Py.len. lia.
Qed.

Lemma enumerate_snd (dims : list Z) : (Py.enumerate dims).*2 = dims.
Proof.
  unfold Py.enumerate. apply snd_zip.
  rewrite length_range. unfold Py.len. lia.
Qed.

Lemma enumerate_lookup (dims : list Z) :
  Forall (λ p, 0 ≤ p.1 ∧ dims !! Z.to_nat p.1 = Some p.2) (Py.enumerate dims).
Proof.
  apply Forall_lookup. intros i [a d] Hi. unfold Py.enumerate in Hi.
  apply lookup_zip_with_Some in Hi as (a' & d' & [= <- <-] & Ha & Hd).
  apply lookup_seqZ in Ha as [-> _]. simpl. split; [lia|].
  by replace (Z.to_nat (0 + Z.of_nat i)) with i by lia.
Qed.

Lemma sorted_enumerate_lookup (dims : list Z) :
  Forall (λ p, 0 ≤ p.1 ∧ dims !! Z.to_nat p.1 = Some p.2)
    (Py.sorted Py.key_snd_lt (Py.enumerate dims)).
Proof. rewrite sorted_Permutation. apply enumerate_lookup. Qed.

Lemma sorted_enumerate_snd (dims : list Z) :
  dims ≡ₚ Py.range (Py.len dims) →
  (Py.sorted Py.key_snd_lt (Py.enumerate dims)).*2 = Py.range (Py.len dims).
Proof.
  intros Hp. apply (Sorted_unique Z.le).
  - apply (Sorted_fmap snd (λ p q, p.2 ≤ q.2)); [done|].
    apply Sorted_key_sorted.
  - apply Sorted_seqZ.
  - by rewrite sorted_Permutation, enumerate_snd.
Qed.

Lemma scattered_dims_Permutation (dims : list Z) :
  scattered_dims dims ≡ₚ Py.range (Py.len dims).
Proof.
  unfold scattered_dims. by rewrite sorted_Permutation, enumerate_fst.
Qed.

Lemma scattered_dims_length (dims : list Z) :
  length (scattered_dims dims) = length dims.
Proof.
  rewrite scattered_dims_Permutation, length_range. unfold Py.len. lia.
Qed.

(** [dims] read at the positions [scattered_dims dims] is [0, 1, ...]. *)
Lemma scattered_dims_inverse (dims : list Z) :
  dims ≡ₚ Py.range (Py.len dims) →
  at_axis dims <$> scattered_dims dims = Py.range (Py.len dims).
Proof.
  intros Hp. rewrite <-(sorted_enumerate_snd dims Hp).
  unfold scattered_dims. rewrite <-list_fmap_compose.
  apply Forall_fmap_ext_1.
  eapply Forall_impl; [apply sorted_enumerate_lookup|].
  intros [a d] [_ Hd]. simpl in *. unfold at_axis. by rewrite Hd.
Qed.

Lemma permute_Ok_inv (s dims t : list Z) :
  permute s dims = Ok t →
  length s = length dims ∧ dims ≡ₚ Py.range (Py.len dims) ∧
  t = at_axis s <$> dims.
Proof.
  intros Ht.
  destruct (decide (length s = length dims)) as [Hlen|Hlen];
    [|by rewrite permute_wrong_length in Ht].
  destruct (decide (Py.sorted Py.int_lt dims = Py.range (Py.len dims)))
    as [Hs|Hs].
  - apply sorted_range_iff in Hs.
    rewrite permute_valid in Ht by done. by injection Ht as <-.
  - rewrite permute_not_permutation in Ht; [done..|].
    by rewrite <-sorted_range_iff.
Qed.

(** X12.  A successful [permute] only rearranges: the argument list was a
    rearrangement of [0 .. rank-1], and the result has the rank of the
    input and the same sizes with the same multiplicities. *)
Theorem X12_permute_rearranges (s dims t : list Z) :
  permute s dims = Ok t →
  dims ≡ₚ Py.range (Py.len s) ∧ length t = length s ∧ t ≡ₚ s.
Proof.
  intros Ht. apply permute_Ok_inv in Ht as (Hlen & Hp & ->).
  assert (HL : Py.len dims = Py.len s) by (unfold Py.len; lia).
  split; [by rewrite <-HL|]. split; [by rewrite length_fmap|].
  rewrite (tuple_as_range_image s) at 2. rewrite <-HL.
  by apply fmap_Permutation.
Qed.

Lemma X12_permute_rearranges_witness :
  [2; 0; 1] ≡ₚ Py.range (Py.len [2; 3; 5]) ∧
  length [5; 2; 3] = length [2; 3; 5] ∧ [5; 2; 3] ≡ₚ [2; 3; 5].
Proof.
  apply (X12_permute_rearranges [2; 3; 5] [2; 0; 1] [5; 2; 3]).
  vm_compute. reflexivity.
Defined.

(** X13.  Round trip: permuting by [dims] and then by the positions of
    [0], [1], ... in [dims] (the inverse rearrangement, which [permute]
    itself computes as [scattered_dims]) gives the original shape back;
    and the identity order [0, 1, ...] changes nothing. *)
Theorem X13_permute_round_trip (s dims t : list Z) :
  permute s dims = Ok t →
  permute t (scattered_dims dims) = Ok s ∧
  permute s (Py.range (Py.len s)) = Ok s.
Proof.
  intros Ht. apply permute_Ok_inv in Ht as (Hlen & Hp & ->).
  assert (HL : Py.len dims = Py.len s) by (unfold Py.len; lia).
  split.
  - rewrite permute_valid.
    + f_equal. rewrite (tuple_as_range_image s) at 2.
      rewrite <-HL, <-(scattered_dims_inverse dims Hp).
      unfold scattered_dims. rewrite <-!list_fmap_compose.
      apply Forall_fmap_ext_1.
      eapply Forall_impl; [apply sorted_enumerate_lookup|].
      intros [a d] [_ Hd]. simpl in *. unfold at_axis at 1 3.
      rewrite list_lookup_fmap, Hd. simpl. unfold at_axis. by rewrite Hd.
    + by rewrite length_fmap, scattered_dims_length.
    + replace (Py.len (scattered_dims dims)) with (Py.len dims)
        by (unfold Py.len; by rewrite scattered_dims_length).
      apply scattered_dims_Permutation.
  - rewrite permute_valid.
    + by rewrite <-tuple_as_range_image.
    + rewrite length_range. unfold Py.len. lia.
    + replace (Py.len (Py.range (Py.len s))) with (Py.len s); [done|].
      unfold Py.len at 2. rewrite length_range. unfold Py.len. lia.
Qed.

Lemma X13_permute_round_trip_witness :
  scattered_dims [2; 0; 1] = [1; 2; 0] ∧
  permute [5; 2; 3] (scattered_dims [2; 0; 1]) = Ok [2; 3; 5] ∧
  permute [2; 3; 5] (Py.range (Py.len [2; 3; 5])) = Ok [2; 3; 5].
Proof.
  split; [vm_compute; reflexivity|].
  apply (X13_permute_round_trip [2; 3; 5] [2; 0; 1] [5; 2; 3]).
  vm_compute. reflexivity.
Defined.

(** X14.  [scalar] never fails and always returns the rank-0 shape: its
    assertion on the result of [reduce_dims] holds for every input. *)
Theorem X14_scalar_is_rank_zero (input : list Z) : scalar input = Ok [].
Proof. unfold scalar. by rewrite reduce_dims_no_keepdim. Qed.

(** X15.  [reduce_dims] with [keepdim]: the call returns normally exactly
    when every size stored in the shape is itself a member of the set
    built from [dim], and the result is then a tuple of ones of the
    input's rank; in every other case the length assertion fails. *)
Theorem X15_reduce_dims_keepdim (input : list Z) (dim : DimArg) :
  reduce_dims input dim true =
    if bool_decide (Forall (.∈ dimensions_of dim) input)
    then Ok (replicate (length input) 1)
    else Err AssertionError.
Proof. apply reduce_dims_keepdim. Qed.

Example reduce_dims_keepdim_example :
  reduce_dims [2; 3] (DimTuple [3; 2]) true = Ok [1; 1] ∧
  reduce_dims [2; 3] (DimTuple [0; 1]) true = Err AssertionError.
Proof. split; vm_compute; reflexivity. Qed.

End permute_round_trip.

(* ===================================================================== *)
(** * Running, wrapping and deferring *)
(* ===================================================================== *)

Section run_facts.
Context `{Torch} `{!tensors.TorchOps}.
Import tensors.

Lemma run_lazy_None (v : Value) (b : option Z) :
  run (lazy v b) None = run v None.
Proof. by destruct v. Qed.

Lemma run_args_lazy (a : list Value) :
  run_args ((λ arg, lazy arg None) <$> a) None = run_args a None.
Proof.
  unfold run_args. induction a as [|v a IH]; [done|].
  cbn [fmap list_fmap mapM]. cbn [fmap list_fmap mapM] in IH.
  by rewrite run_lazy_None, IH.
Qed.

Lemma run_kwargs_lazy (k : list (string * Value)) :
  run_kwargs ((λ kv, (kv.1, lazy kv.2 None)) <$> k) None = run_kwargs k None.
Proof.
  unfold run_kwargs. induction k as [|[key v] k IH]; [done|].
  cbn [fmap list_fmap mapM fst snd]. cbn [fmap list_fmap mapM] in IH.
  by rewrite run_lazy_None, IH.
Qed.

Lemma run_deferred (e : Evaluation) (b : option Z)
    (partial : option PartialInfo) :
  run (VLazy (MkLazyTensor (VEval e) b)) partial
  = VTensor <$> Evaluation_run e partial.
Proof. reflexivity. Qed.

Lemma lazy_forward_true_inv (f : Callable) (shape_func : ShapeFunction)
    (a : list Value) (k : list (string * Value)) (v : Value) :
  lazy_forward true f shape_func a k = Ok v →
  ∃ s, shape_func a k = Ok s ∧
       v = VLazy (MkLazyTensor
                    (VEval (MkEvaluation f s None
                              ((λ arg, lazy arg None) <$> a)
                              ((λ kv, (kv.1, lazy kv.2 None)) <$> k)))
                    None).
Proof.
  unfold lazy_forward, LazyFunction_call. intros Hv.
  destruct (shape_func a k) as [s|]; simpl in Hv; [|done].
  exists s. split; [done|]. by injection Hv as <-.
Qed.

(** X17.  Wrapping is transparent: a [LazyTensor] built from a
    [LazyTensor] is that tensor (its own batch argument is ignored),
    [lazy] applied twice is [lazy] applied once, and a full run of
    [lazy(v)] is a full run of [v].  Only a partial run tells a wrapped
    tensor from a bare one: the wrapped one is indexed, the bare one is
    returned whole. *)
Theorem X17_lazy_wrapping (v : Value) (l : LazyTensor) (t : Tensor)
    (b b' : option Z) (p : PartialInfo) :
  LazyTensor_init (VLazy l) b = l ∧
  lazy (lazy v b) b' = lazy v b ∧
  run (lazy v b) None = run v None ∧
  run (lazy (VTensor t) b) (Some p) = VTensor <$> Tensor_getitem t (index p) ∧
  run (VTensor t) (Some p) = Ok (VTensor t).
Proof.
  split; [by destruct l|]. split; [by destruct v|].
  split; [apply run_lazy_None|]. by split.
Qed.

(** X18.  Deferring does not change the result: when [lazy_forward]
    builds a node (gradient tracking enabled), a full run of the value it
    returns evaluates the operands, calls the recorded function on them,
    exactly as the eager branch of the dispatcher does on the original
    arguments, and then checks the outcome against the shape that the
    shape function predicted. *)
Theorem X18_deferred_run_is_eager (f : Callable) (shape_func : ShapeFunction)
    (a : list Value) (k : list (string * Value)) (v : Value) :
  lazy_forward true f shape_func a k = Ok v →
  ∃ s, shape_func a k = Ok s ∧
       run v None =
         (raw ← evaluate_eagerly f a k;
          py_assert (Shape_eq s (Tensor_shape raw));;
          Ok (VTensor raw)).
Proof.
  intros Hv. apply lazy_forward_true_inv in Hv as (s & Hs & ->).
  exists s. split; [done|].
  rewrite run_deferred, Evaluation_run_unfold.
  cbn [args kwargs func].
  rewrite run_args_lazy, run_kwargs_lazy. unfold evaluate_eagerly.
  destruct (run_args a None) as [ra|]; [|done]. cbn [mbind result_bind].
  destruct (run_kwargs k None) as [rk|]; [|done]. cbn [mbind result_bind].
  destruct (call f ra rk) as [raw|]; [|done]. cbn [mbind result_bind].
  unfold finish_run. cbn [mbind result_bind shape].
  by destruct (py_assert _).
Qed.

(** X19.  A value built by [lazy_forward] can never be run under a partial
    descriptor: the node it wraps is created without a callback, so every
    such run ends in an error. *)
Theorem X19_deferred_never_runs_partially (f : Callable)
    (shape_func : ShapeFunction) (a : list Value) (k : list (string * Value))
    (v : Value) (p : PartialInfo) :
  lazy_forward true f shape_func a k = Ok v →
  ∀ r, run v (Some p) ≠ Ok r.
Proof.
  intros Hv r Hr. apply lazy_forward_true_inv in Hv as (s & Hs & ->).
  rewrite run_deferred in Hr.
  destruct (Evaluation_run _ (Some p)) as [t|] eqn:Ht; [|done].
  apply Evaluation_run_Ok_inv in Ht as (ra & rk & raw & _ & _ & _ & Hfin).
  by rewrite finish_run_no_callback in Hfin.
Qed.

End run_facts.

(* ===================================================================== *)
(** * The registries and the dispatcher *)
(* ===================================================================== *)

Section registry_facts.
Context {T : Type}.
Import tensors.

Lemma lstrip_underscores_idemp (key : string) :
  lstrip_underscores (lstrip_underscores key) = lstrip_underscores key.
Proof.
  induction key as [|c key IH]; [done|]. simpl.
  destruct (Ascii.eqb c "_") eqn:Hc; [done|]. simpl. by rewrite Hc.
Qed.

(** X20.  Lookup in a [MethodFunction].  A method-style lookup prefers the
    method dictionary and falls back to the function dictionary, so it
    finds whatever a function-style lookup finds; a name is tried as given
    and then with its leading underscores stripped; and the lookup is
    empty exactly when neither spelling is in either dictionary. *)
Theorem X20_lookup_method_covers_function (self : MethodFunction T)
    (key : string) :
  (∀ v, method self !! key = Some v → lookup_method self key = Some v) ∧
  (is_Some (lookup_function self key) → is_Some (lookup_method self key)) ∧
  (lookup_method self key = None ↔
     method self !! key = None ∧ function self !! key = None ∧
     method self !! lstrip_underscores key = None ∧
     function self !! lstrip_underscores key = None) ∧
  (lookup_function self key = None ↔
     function self !! key = None ∧
     function self !! lstrip_underscores key = None).
Proof.
  unfold lookup_method, lookup_function, lookup, _search.
  destruct (method self !! key) as [m|] eqn:Hm;
    destruct (function self !! key) as [f|] eqn:Hf;
    destruct (method self !! lstrip_underscores key) as [m'|] eqn:Hm';
    destruct (function self !! lstrip_underscores key) as [f'|] eqn:Hf';
    repeat split; intros; destruct_and?; simplify_eq; eauto;
    try by (exfalso; eapply is_Some_None; eauto).
Qed.

End registry_facts.

Lemma X20_lookup_witness :
  tensors.lookup_function tensors.SHAPE_OPS "__sum"
    = Some (tensors.rule shapes_reduce_dims) ∧
  is_Some (tensors.lookup_method tensors.SHAPE_OPS "__sum") ∧
  tensors.lookup_method tensors.SHAPE_OPS "permute"
    = Some (tensors.rule shapes_permute) ∧
  tensors.lookup_function tensors.SHAPE_OPS "permute"
    = Some tensors.impl_permute_function_shape ∧
  tensors.lookup_method tensors.SHAPE_OPS "__add__" = None.
Proof.
  pose proof (X20_lookup_method_covers_function tensors.SHAPE_OPS "__sum")
    as (_ & Hcov & _).
  pose proof (X20_lookup_method_covers_function tensors.SHAPE_OPS "permute")
    as (Hm & _).
  pose proof (X20_lookup_method_covers_function tensors.SHAPE_OPS "__add__")
    as (_ & _ & Hnone & _).
  split; [vm_compute; reflexivity|].
  split; [apply Hcov; vm_compute; eauto|].
  split; [apply Hm; vm_compute; reflexivity|].
  split; [vm_compute; reflexivity|].
  apply Hnone. repeat split; vm_compute; reflexivity.
Defined.

Section custom_registry_facts.
Import tensors.

Lemma CUSTOM_OPS_function (name : string) :
  function CUSTOM_OPS !! name =
    if decide (name = "min") then Some impl_min
    else if decide (name = "max") then Some impl_max
    else None.
Proof.
  unfold CUSTOM_OPS. simpl.
  destruct (decide (name = "min")) as [->|Hmin]; [done|].
  rewrite lookup_insert_ne by done.
  destruct (decide (name = "max")) as [->|Hmax]; [done|].
  by rewrite lookup_insert_ne by done.
Qed.

Lemma CUSTOM_OPS_method (name : string) : method CUSTOM_OPS !! name = None.
Proof. done. Qed.

Lemma CUSTOM_OPS_lookup_min (name : string) :
  lstrip_underscores name = "min" →
  lookup_function CUSTOM_OPS name = Some impl_min ∧
  lookup_method CUSTOM_OPS name = Some impl_min.
Proof.
  intros Hs. unfold lookup_function, lookup_method, lookup, _search.
  rewrite CUSTOM_OPS_method, !CUSTOM_OPS_function, Hs.
  destruct (decide (name = "min")); [done|].
  destruct (decide (name = "max")) as [->|]; [done|]. done.
Qed.

Lemma CUSTOM_OPS_lookup_max (name : string) :
  lstrip_underscores name = "max" →
  lookup_function CUSTOM_OPS name = Some impl_max ∧
  lookup_method CUSTOM_OPS name = Some impl_max.
Proof.
  intros Hs. unfold lookup_function, lookup_method, lookup, _search.
  rewrite CUSTOM_OPS_method, !CUSTOM_OPS_function, Hs.
  destruct (decide (name = "min")) as [->|]; [done|].
  destruct (decide (name = "max")); done.
Qed.

End custom_registry_facts.

Section dispatch_facts.
Context `{Torch} `{!tensors.TorchOps}.
Import tensors.
Variable Tensor_size : Tensor → list Z.
Variable Tensor_size_dim : Tensor → Z → result Z.
Variable Tensor_hasattr : string → bool.
Variable shape_impl : ShapeImpl → ShapeFunction.

(** C8 (the code departs from the claim).  The operators [//] and its
    reflected form raise [NeverImplementedError] whatever the operands and
    the gradient flag.  But floor-division also reaches the dispatcher
    under the name [__floordiv__] (a host tensor on the left of [//]), and
    there the entry registered under "functions that will not be
    implemented" is used as a shape function: [lazy_forward] calls it only
    when gradient tracking is enabled, and with tracking disabled the
    dispatcher is the eager call of the function on the operands.
    [floor_divide] is in neither registry and is evaluated eagerly under
    either flag. *)
Theorem C8_floordiv_dispatch_is_eager_without_grad (a : list Value)
    (k : option (list (string * Value))) :
  (∀ g self other,
     LazyTensor___floordiv__ g self other = Err NeverImplementedError ∧
     LazyTensor___rfloordiv__ g self other = Err NeverImplementedError) ∧
  lookup_function SHAPE_OPS "__floordiv__"
    = Some (rule NeverImplementedError_raise_error) ∧
  LazyTensor___torch_function__ shape_impl false (Tensor_method "__floordiv__")
    [type_Tensor; type_LazyTensor] a k
    = (λ t, Returned (Single (VTensor t)))
        <$> call (Tensor_method "__floordiv__") a (default [] k) ∧
  LazyTensor___torch_function__ shape_impl true (Tensor_method "__floordiv__")
    [type_Tensor; type_LazyTensor] a k
    = (λ v, Returned (Single v))
        <$> lazy_forward true (Tensor_method "__floordiv__")
              (shape_impl (rule NeverImplementedError_raise_error))
              a (default [] k) ∧
  ∀ g, LazyTensor___torch_function__ shape_impl g (torch_function "floor_divide")
         [type_Tensor; type_LazyTensor] a k
       = (λ t, Returned (Single (VTensor t)))
           <$> evaluate_eagerly (torch_function "floor_divide") a (default [] k).
Proof.
  assert (Hc : lookup_function CUSTOM_OPS "__floordiv__" = None)
    by (vm_compute; reflexivity).
  assert (Hs : lookup_function SHAPE_OPS "__floordiv__"
               = Some (rule NeverImplementedError_raise_error))
    by (vm_compute; reflexivity).
  assert (Hc' : lookup_function CUSTOM_OPS "floor_divide" = None)
    by (vm_compute; reflexivity).
  assert (Hs' : lookup_function SHAPE_OPS "floor_divide" = None)
    by (vm_compute; reflexivity).
  split; [done|]. split; [exact Hs|].
  unfold LazyTensor___torch_function__. cbn [forallb handled_type andb negb __name__].
  rewrite Hc, Hs, Hc', Hs'. split; [|by split].
  unfold lazy_forward. by destruct (call _ _ _).
Qed.

(** X21.  Indexed read is a full run followed by indexing: on a lazy
    tensor that stores a host tensor it indexes the stored tensor, which
    is also what a partial run with that index returns; on one that stores
    a deferred node it runs the node without a partial descriptor, so it
    works for nodes that have no callback. *)
Theorem X21_getitem_runs_in_full (self : LazyTensor) (index : Index) :
  match _data self with VTensor _ | VLazy _ | VEval _ => True | _ => False end →
  LazyTensor___getitem__ self index
    = (data ← LazyTensor_run self None; Tensor_getitem data index) ∧
  ∀ t, _data self = VTensor t →
       LazyTensor___getitem__ self index
         = LazyTensor_run self (Some {| tensors.index := index |}).
Proof.
  intros Hdata. destruct self as [[] b]; simpl in Hdata; try done.
  all: split; [done|]; intros ? Ht; simpl in Ht; by simplify_eq.
Qed.

(** X22.  The size of a deferred result is known without running it: for
    a value that [lazy_forward] built, [size()] is the tuple that the
    shape function predicted and [size(dim)] is its entry at [dim]
    (negative [dim] counts from the end, an entry out of range is an
    [IndexError]); the host library is not consulted. *)
Theorem X22_size_of_deferred (f : Callable) (shape_func : ShapeFunction)
    (a : list Value) (k : list (string * Value)) (l : LazyTensor) :
  lazy_forward true f shape_func a k = Ok (VLazy l) →
  ∃ s, shape_func a k = Ok s ∧
       LazyTensor_size Tensor_size Tensor_size_dim l None
         = Ok (size_tuple (value s)) ∧
       ∀ dim, LazyTensor_size Tensor_size Tensor_size_dim l (Some dim)
              = size_int <$> Py.getitem (value s) dim.
Proof.
  intros Hv. apply lazy_forward_true_inv in Hv as (s & Hs & [= ->]).
  exists s. by repeat split.
Qed.

(** X23.  [__torch_function__] declines, returning [NotImplemented]
    without looking anything up or running anything, as soon as one of the
    participating classes is not a lazy tensor, a host tensor or a
    number. *)
Theorem X23_torch_function_declines (g : bool) (func : Callable)
    (types : list PyType) (a : list Value)
    (k : option (list (string * Value))) (name : string) :
  type_other name ∈ types →
  LazyTensor___torch_function__ shape_impl g func types a k = Ok NotImplemented.
Proof.
  intros Hin. unfold LazyTensor___torch_function__.
  assert (forallb handled_type types = false) as ->; [|done].
  apply not_true_is_false. intros Hall.
  rewrite forallb_forall in Hall.
  apply list_elem_of_In in Hin. by apply Hall in Hin.
Qed.

(** X24.  An operation that neither registry knows is evaluated eagerly
    by [__torch_function__]: every operand is run in full and the function
    is called on the results.  The outcome is a host tensor, never a lazy
    tensor, and does not depend on whether gradient tracking is enabled. *)
Theorem X24_unregistered_is_eager (g : bool) (func : Callable)
    (types : list PyType) (a : list Value)
    (k : option (list (string * Value))) :
  forallb handled_type types = true →
  lookup_function CUSTOM_OPS (__name__ func) = None →
  lookup_function SHAPE_OPS (__name__ func) = None →
  LazyTensor___torch_function__ shape_impl g func types a k
    = (λ t, Returned (Single (VTensor t)))
        <$> evaluate_eagerly func a (default [] k) ∧
  ∀ d, LazyTensor___torch_function__ shape_impl g func types a k = Ok d →
       ∃ t, d = Returned (Single (VTensor t)).
Proof.
  intros Hty Hc Hs. unfold LazyTensor___torch_function__.
  rewrite Hty, Hc, Hs. simpl. split; [done|].
  intros d Hd. destruct (evaluate_eagerly _ _ _) as [t|]; [|done].
  exists t. by injection Hd as <-.
Qed.

(** X25.  The custom implementations take priority under every spelling:
    a function whose name is [min] or [max] after stripping leading
    underscores is handed to [_min] or [_max], through
    [__torch_function__] and through attribute access alike, with the
    first positional argument (the lazy tensor itself, for attribute
    access) as [input]. *)
Theorem X25_min_max_are_custom (g : bool) (func : Callable)
    (types : list PyType) (self : LazyTensor) (input : Value)
    (a : list Value) (k : list (string * Value)) :
  forallb handled_type types = true →
  dict_has k "input" = false →
  (lstrip_underscores (__name__ func) = "min" →
     LazyTensor___torch_function__ shape_impl g func types (input :: a) (Some k)
       = Returned <$> _min g input a k) ∧
  (lstrip_underscores (__name__ func) = "max" →
     LazyTensor___torch_function__ shape_impl g func types (input :: a) (Some k)
       = Returned <$> _max g input a k) ∧
  (Tensor_hasattr "min" = true →
     LazyTensor___getattr__ Tensor_hasattr shape_impl g self "min" a k
       = _min g (VLazy self) a k) ∧
  (Tensor_hasattr "max" = true →
     LazyTensor___getattr__ Tensor_hasattr shape_impl g self "max" a k
       = _max g (VLazy self) a k).
Proof.
  intros Hty Hk. repeat split.
  - intros Hn. unfold LazyTensor___torch_function__.
    rewrite Hty, (proj1 (CUSTOM_OPS_lookup_min _ Hn)). simpl.
    unfold call_custom. by rewrite Hk.
  - intros Hn. unfold LazyTensor___torch_function__.
    rewrite Hty, (proj1 (CUSTOM_OPS_lookup_max _ Hn)). simpl.
    unfold call_custom. by rewrite Hk.
  - intros Hattr. unfold LazyTensor___getattr__. rewrite Hattr. simpl.
    unfold call_custom. by rewrite Hk.
  - intros Hattr. unfold LazyTensor___getattr__. rewrite Hattr. simpl.
    unfold call_custom. by rewrite Hk.
Qed.

End dispatch_facts.

(* ===================================================================== *)
(** * The shape adapters of [tensors.py] *)
(* ===================================================================== *)

Section adapter_facts.
Import shapes.

(** X26.  [_permute_function_shape] with a lone integer: the integer is
    taken as a one-element order, so the call is a [TypeError] unless the
    shape has rank one, a [ValueError] unless the integer is [0], and
    otherwise returns the shape unchanged. *)
Theorem X26_permute_function_shape_int (input : list Z) (d : Z) :
  _permute_function_shape input (DimInt d) =
    if negb (Py.len input =? 1) then Err TypeError
    else if d =? 0 then Ok input
    else Err (ValueError None).
Proof.
  unfold _permute_function_shape.
  destruct (Z.eqb_spec (Py.len input) 1) as [Hlen|Hlen]; simpl.
  - destruct input as [|x [|y input]];
      try (unfold Py.len in Hlen; simpl in Hlen; lia).
    destruct (Z.eqb_spec d 0) as [->|Hd]; [done|].
    apply permute_not_permutation; [done|].
    intros Hp. apply Permutation_singleton_l in Hp. by injection Hp.
  - apply permute_wrong_length. unfold Py.len in Hlen. simpl. lia.
Qed.

(** X27.  [_t_shape] exchanges the first two sizes and keeps the rest; on
    a shape of rank below two it raises [ValueError]. *)
Theorem X27_t_shape_swaps_first_two (a b : Z) (rest input : list Z) :
  _t_shape (a :: b :: rest) = Ok (b :: a :: rest) ∧
  ((length input < 2)%nat → _t_shape input = Err (ValueError None)).
Proof.
  split.
  - unfold _t_shape.
    rewrite (tranpose_Ok_intro (a :: b :: rest) 0 1 0%nat 1%nat a b);
      try done; try (simpl; lia).
    all: unfold position; cbn [Z.ltb Z.compare orb length].
    all: match goal with
         | |- context [?x <=? ?y] => destruct (Z.leb_spec x y); [lia|done]
         end.
  - intros Hlen. unfold _t_shape, tranpose, Py.len.
    by destruct (Z.ltb_spec (Z.of_nat (length input)) 2); [|lia].
Qed.

Lemma X27_t_shape_witness :
  _t_shape [4; 3] = Ok [3; 4] ∧ _t_shape [4] = Err (ValueError None).
Proof.
  split.
  - apply (proj1 (X27_t_shape_swaps_first_two 4 3 [] [])).
  - apply (proj2 (X27_t_shape_swaps_first_two 0 0 [] [4])). simpl. lia.
Defined.

End adapter_facts.

(* ===================================================================== *)
(** * The dispatcher on the concrete host *)
(* ===================================================================== *)

Section dispatch_on_lists.
#[local] Existing Instance ListHost.torch.
#[local] Existing Instance ListHost.ops.
Import tensors ListHost.

(** [t // lazy] with gradient tracking disabled: the dispatcher hands the
    operands to the host's [__floordiv__] and returns what the host
    answers (this host does not take a lazy operand); it does not raise
    [NeverImplementedError]. *)
Example C8_floordiv_failing_input :
  LazyTensor___torch_function__ host_shape_impl false
    (Tensor_method "__floordiv__") [type_Tensor; type_LazyTensor]
    [VTensor (tensor [7; 8; 9]); leaf [2; 2; 2]] None
  = (λ t, Returned (Single (VTensor t)))
      <$> call (Tensor_method "__floordiv__")
            [VTensor (tensor [7; 8; 9]); leaf [2; 2; 2]] [] ∧
  LazyTensor___torch_function__ host_shape_impl false
    (Tensor_method "__floordiv__") [type_Tensor; type_LazyTensor]
    [VTensor (tensor [7; 8; 9]); leaf [2; 2; 2]] None
  = Err TypeError.
Proof. split; vm_compute; reflexivity. Qed.

Lemma X18_deferred_run_witness :
  lazy_forward true (Tensor_method "__add__") (shape_function shapes_symmetric)
    [leaf [1; 2; 3]; leaf [10; 20; 30]] [] = Ok deferred_sum ∧
  ∃ s, shape_function shapes_symmetric [leaf [1; 2; 3]; leaf [10; 20; 30]] []
         = Ok s ∧
       run deferred_sum None =
         (raw ← evaluate_eagerly (Tensor_method "__add__")
                  [leaf [1; 2; 3]; leaf [10; 20; 30]] [];
          py_assert (Shape_eq s (Tensor_shape raw));;
          Ok (VTensor raw)).
Proof.
  assert (Hfwd : lazy_forward true (Tensor_method "__add__")
                   (shape_function shapes_symmetric)
                   [leaf [1; 2; 3]; leaf [10; 20; 30]] [] = Ok deferred_sum)
    by (vm_compute; reflexivity).
  split; [exact Hfwd|].
  exact (X18_deferred_run_is_eager _ _ _ _ _ Hfwd).
Defined.

Lemma X19_deferred_partial_witness :
  lazy_forward true (Tensor_method "__add__") (shape_function shapes_symmetric)
    [leaf [1; 2; 3]; leaf [10; 20; 30]] [] = Ok deferred_sum ∧
  ∀ r, run deferred_sum (Some first_row) ≠ Ok r.
Proof.
  assert (Hfwd : lazy_forward true (Tensor_method "__add__")
                   (shape_function shapes_symmetric)
                   [leaf [1; 2; 3]; leaf [10; 20; 30]] [] = Ok deferred_sum)
    by (vm_compute; reflexivity).
  split; [exact Hfwd|].
  exact (X19_deferred_never_runs_partially _ _ _ _ _ first_row Hfwd).
Defined.

Lemma X21_getitem_witness :
  LazyTensor___getitem__ (MkLazyTensor (VEval (add_node [3] None)) None)
    (0%nat, 1%nat) = Ok (tensor [11]) ∧
  LazyTensor___getitem__ (MkLazyTensor (VTensor stored) None) (0%nat, 1%nat)
    = LazyTensor_run (MkLazyTensor (VTensor stored) None) (Some first_row).
Proof.
  split.
  - rewrite (proj1 (X21_getitem_runs_in_full
                      (MkLazyTensor (VEval (add_node [3] None)) None)
                      (0%nat, 1%nat) I)).
    vm_compute. reflexivity.
  - apply (proj2 (X21_getitem_runs_in_full
                    (MkLazyTensor (VTensor stored) None) (0%nat, 1%nat) I)
             stored eq_refl).
Defined.

Lemma X22_size_witness :
  ∃ s, shape_function shapes_symmetric [leaf [1; 2; 3]; leaf [10; 20; 30]] []
         = Ok s ∧
       LazyTensor_size host_size host_size_dim
         (MkLazyTensor (VEval (add_node [3] None)) None) None
         = Ok (size_tuple (value s)) ∧
       ∀ dim, LazyTensor_size host_size host_size_dim
                (MkLazyTensor (VEval (add_node [3] None)) None) (Some dim)
              = size_int <$> Py.getitem (value s) dim.
Proof.
  apply (X22_size_of_deferred host_size host_size_dim
           (Tensor_method "__add__") (shape_function shapes_symmetric)
           [leaf [1; 2; 3]; leaf [10; 20; 30]] []).
  vm_compute. reflexivity.
Defined.

Lemma X23_declines_witness :
  LazyTensor___torch_function__ host_shape_impl true (torch_function "add")
    [type_LazyTensor; type_other "str"] [leaf [1; 2; 3]] None
  = Ok NotImplemented.
Proof.
  apply (X23_torch_function_declines host_shape_impl true
           (torch_function "add") [type_LazyTensor; type_other "str"]
           [leaf [1; 2; 3]] None "str").
  apply list_elem_of_In. simpl. tauto.
Defined.

Lemma X24_unregistered_witness :
  LazyTensor___torch_function__ host_shape_impl true (Tensor_method "__add__")
    [type_LazyTensor; type_LazyTensor]
    [leaf [1; 2; 3]; leaf [10; 20; 30]] None
  = Ok (Returned (Single (VTensor (tensor [11; 22; 33])))) ∧
  lookup_function SHAPE_OPS "floor_divide" = None ∧
  lookup_function CUSTOM_OPS "floor_divide" = None.
Proof.
  split; [|split; vm_compute; reflexivity].
  rewrite (proj1 (X24_unregistered_is_eager host_shape_impl true
                    (Tensor_method "__add__")
                    [type_LazyTensor; type_LazyTensor]
                    [leaf [1; 2; 3]; leaf [10; 20; 30]] None
                    eq_refl eq_refl eq_refl)).
  vm_compute. reflexivity.
Defined.

Lemma X25_min_max_witness :
  LazyTensor___torch_function__ host_shape_impl true (torch_function "__min")
    [type_LazyTensor; type_LazyTensor]
    [leaf [1; 2; 3]; leaf [3; 2; 1]] (Some [])
  = Returned <$> _min true (leaf [1; 2; 3]) [leaf [3; 2; 1]] [] ∧
  LazyTensor___getattr__ host_hasattr host_shape_impl true
    (MkLazyTensor (VTensor stored) None) "max" [leaf [3; 2; 1]] []
  = _max true (leaf [1; 2; 3]) [leaf [3; 2; 1]] [].
Proof.
  pose proof (X25_min_max_are_custom host_hasattr host_shape_impl true
                (torch_function "__min") [type_LazyTensor; type_LazyTensor]
                (MkLazyTensor (VTensor stored) None)
                (leaf [1; 2; 3]) [leaf [3; 2; 1]] [] eq_refl eq_refl)
    as (Hmin & _ & _ & Hmax).
  split; [exact (Hmin eq_refl)|exact (Hmax eq_refl)].
Defined.

End dispatch_on_lists.
